(** * RabbitMQ topology custom-resource handler

    A shallow embedding of
    [infra/BomExtractionLambdaCdk/lambda/rabbitmq-topology/index.py]
    (the function [on_event] and its inner helper [api]) together with the
    properties its design document states about it.

    Conventions of the embedding.
    - Python values that come out of [json.loads] (and the Lambda event, which
      is such a value) are the inductive type [json].  A [dict] is an
      association list in insertion order; keys are unique in a real dict and
      lookup returns the first match.
    - A Python [str] is represented by its UTF-8 encoding, one [ascii] per
      byte.  [str.encode('utf-8')] is therefore the identity.
    - A raised exception is the [Err] branch of [res]; the handler never
      catches anything but [urllib.error.HTTPError] inside [api].
    - The handler talks to two external parties, the secret store and the
      broker.  Every such call is appended to a history of [effect]s; the
      answer of the outside world is an arbitrary function of the history so
      far and of the request.
    - [print] only writes to stdout.  The text is not modelled, but every
      expression inside a printed f-string is evaluated at the place where
      the source evaluates it, because it can raise. *)

From Stdlib Require Import ZArith List String Ascii Bool Lia DecimalString.
Import ListNotations.
Open Scope string_scope.
Open Scope Z_scope.
Set Warnings "-register-all".

(** ** Values *)

Inductive json : Type :=
| JNull
| JBool (b : bool)
| JInt (n : Z)
| JFloat (m e : Z)              (* the float m * 10^e *)
| JStr (s : string)
| JArr (items : list json)
| JObj (fields : list (string * json)).

Inductive exn : Type :=
| KeyError (key : string)
| TypeError
| AttributeError
| JSONDecodeError
| ValueError (keys_found : list string)
| HTTPError (code : Z) (body_text : string)   (* the text its body still yields *)
| OtherError (name : string).   (* URLError, socket timeout, botocore errors *)

Inductive res (A : Type) : Type :=
| Ok (a : A)
| Err (e : exn).
Arguments Ok {A} a.
Arguments Err {A} e.

Definition is_ok {A} (r : res A) : bool :=
  match r with Ok _ => true | Err _ => false end.

(** ** The Python operations the handler uses on such values *)

Fixpoint assoc {V} (k : string) (l : list (string * V)) : option V :=
  match l with
  | [] => None
  | (k', v) :: rest => if String.eqb k k' then Some v else assoc k rest
  end.

(** [d[k]] *)
Definition subscript (d : json) (k : string) : res json :=
  match d with
  | JObj fields =>
      match assoc k fields with
      | Some v => Ok v
      | None => Err (KeyError k)
      end
  | _ => Err TypeError
  end.

(** [d.get(k, default)] *)
Definition get (d : json) (k : string) (default : json) : res json :=
  match d with
  | JObj fields =>
      match assoc k fields with
      | Some v => Ok v
      | None => Ok default
      end
  | _ => Err AttributeError
  end.

(** [d.keys()] *)
Definition keys (d : json) : res (list string) :=
  match d with
  | JObj fields => Ok (map fst fields)
  | _ => Err AttributeError
  end.

(** The items a [for] loop visits.  Iterating a dict yields its keys and
    iterating a string yields one-character strings (here: one per byte; the
    elements are strings either way, which is all the handler observes). *)
Definition iter (v : json) : res (list json) :=
  match v with
  | JArr items => Ok items
  | JObj fields => Ok (map (fun kv => JStr (fst kv)) fields)
  | JStr s => Ok (map (fun c => JStr (String c EmptyString)) (list_ascii_of_string s))
  | _ => Err TypeError
  end.

(** Truth value of an object, as tested by [if], [not] and [or]
    ([a or b] is [a] when [a] is true and [b] otherwise). *)
Definition truthy (v : json) : bool :=
  match v with
  | JNull => false
  | JBool b => b
  | JInt n => negb (n =? 0)
  | JFloat m _ => negb (m =? 0)
  | JStr s => negb (String.eqb s "")
  | JArr items => match items with [] => false | _ => true end
  | JObj fields => match fields with [] => false | _ => true end
  end.

(** [v == "text"] *)
Definition eq_str (v : json) (text : string) : bool :=
  match v with
  | JStr s => String.eqb s text
  | _ => false
  end.

(** [str(n)] for an integer *)
Definition str_int (n : Z) : string := NilZero.string_of_int (Z.to_int n).

(** ** [urllib.parse.quote(s, safe="")]

    Every byte of the UTF-8 encoding that is not a letter, a digit or one of
    [_.-~] becomes [%XX] with upper-case hexadecimal digits.  A value that is
    not a string is rejected with [TypeError]. *)

Definition always_safe (c : ascii) : bool :=
  let n := nat_of_ascii c in
  ((65 <=? n) && (n <=? 90))%nat || ((97 <=? n) && (n <=? 122))%nat
  || ((48 <=? n) && (n <=? 57))%nat
  || Ascii.eqb c "_" || Ascii.eqb c "." || Ascii.eqb c "-" || Ascii.eqb c "~".

Definition hex_digit (n : nat) : ascii :=
  if (n <? 10)%nat then ascii_of_nat (48 + n) else ascii_of_nat (55 + n).

Definition quote_byte (c : ascii) : string :=
  if always_safe c then String c EmptyString
  else
    let n := nat_of_ascii c in
    String "%" (String (hex_digit (n / 16)) (String (hex_digit (n mod 16)) EmptyString)).

Fixpoint quote_str (s : string) : string :=
  match s with
  | EmptyString => EmptyString
  | String c rest => quote_byte c ++ quote_str rest
  end.

Definition quote (v : json) : res string :=
  match v with
  | JStr s => Ok (quote_str s)
  | _ => Err TypeError
  end.

(** ** [base64.b64encode] (RFC 4648, with padding) *)

Definition b64_char (n : nat) : ascii :=
  if (n <? 26)%nat then ascii_of_nat (65 + n)
  else if (n <? 52)%nat then ascii_of_nat (71 + n)
  else if (n <? 62)%nat then ascii_of_nat (n - 4)
  else if (n =? 62)%nat then "+"%char else "/"%char.

Fixpoint b64_bytes (l : list nat) : list ascii :=
  match l with
  | [] => []
  | [a] =>
      [b64_char (a / 4); b64_char ((a mod 4) * 16); "="%char; "="%char]
  | [a; b] =>
      [b64_char (a / 4); b64_char ((a mod 4) * 16 + b / 16);
       b64_char ((b mod 16) * 4); "="%char]
  | a :: b :: c :: rest =>
      b64_char (a / 4) :: b64_char ((a mod 4) * 16 + b / 16)
      :: b64_char ((b mod 16) * 4 + c / 64) :: b64_char (c mod 64)
      :: b64_bytes rest
  end%nat.

Definition b64encode (s : string) : string :=
  string_of_list_ascii (b64_bytes (map nat_of_ascii (list_ascii_of_string s))).

(** ** The outside world *)

Record request : Type := mkRequest {
  req_method : string;
  req_url : string;
  req_data : option json;       (* the value whose [json.dumps] text is the body *)
  req_headers : list (string * string);
  req_timeout : Z
}.

Inductive effect : Type :=
| SecretsGet (region secret_id : json)
| Http (rq : request).

Definition history := list effect.

(** What [urllib.request.urlopen] does with a request. *)
Inductive transport : Type :=
| Returns (status : Z) (body : string)
| Raises (e : exn).

(** Library functions and collaborators that are not part of the handler. *)
Record externals : Type := mkExternals {
  (** [json.loads] on a text; [None] is [JSONDecodeError] *)
  json_loads : string -> option json;
  (** [str(v)] as used by an f-string, for values that are not strings *)
  py_str : json -> string;
  (** [os.environ.get("AWS_REGION")] *)
  environ_region : option string;
  (** [boto3.client("secretsmanager", region_name=r).get_secret_value(SecretId=a)] *)
  get_secret_value : history -> json -> json -> res json;
  (** [urllib.request.urlopen(req, context=ctx, timeout=t)] *)
  urlopen : history -> request -> transport
}.

(** ** Computations: a history of effects and a possible exception *)

Definition M (A : Type) : Type := history -> res A * history.

Definition ret {A} (a : A) : M A := fun h => (Ok a, h).
Definition bind {A B} (m : M A) (k : A -> M B) : M B :=
  fun h =>
    match m h with
    | (Ok a, h') => k a h'
    | (Err e, h') => (Err e, h')
    end.
Definition lift {A} (r : res A) : M A := fun h => (r, h).

Declare Scope py_scope.
Delimit Scope py_scope with py.
Notation "x <- m ;; k" := (bind m (fun x => k))
  (at level 100, m at next level, right associativity) : py_scope.
Notation "' p <- m ;; k" := (bind m (fun x => let p := x in k))
  (at level 100, p pattern, m at next level, right associativity) : py_scope.
Open Scope py_scope.

(** The [for] statement with the loop-carried local state passed along. *)
Fixpoint for_ {S} (items : list json) (body : json -> S -> M S) (s : S) : M S :=
  match items with
  | [] => ret s
  | x :: rest => s' <- body x s ;; for_ rest body s'
  end.

(** The HTTP requests of a history, oldest first. *)
Fixpoint http_calls (h : history) : list request :=
  match h with
  | [] => []
  | Http rq :: rest => rq :: http_calls rest
  | SecretsGet _ _ :: rest => http_calls rest
  end.

(** Exceptions in pure expressions. *)
Definition rbind {A B} (r : res A) (k : A -> res B) : res B :=
  match r with
  | Ok a => k a
  | Err e => Err e
  end.
Notation "x <~ r ;; k" := (rbind r (fun x => k))
  (at level 100, r at next level, right associativity) : py_scope.

(** [counts[k] += 1] on a dict that has the key. *)
Fixpoint incr (k : string) (counts : list (string * Z)) : list (string * Z) :=
  match counts with
  | [] => []
  | (k', v) :: rest =>
      if String.eqb k k' then (k', v + 1) :: rest else (k', v) :: incr k rest
  end.

(** The arguments of one [api(method, path, body)] call. *)
Record call : Type := mkCall {
  call_method : string;
  call_path : string;
  call_body : json
}.

(** ** The handler *)

Definition physical_id : string := "rabbitmq-topology-v1".
Definition vhost : string := "%2F".

(** [f"{v}"] *)
Definition fmt (str : json -> string) (v : json) : string :=
  match v with
  | JStr s => s
  | _ => str v
  end.

(** Loop bodies up to the [api] call: the path and the body dict, with every
    subscript, [quote] and [get] in the order the source evaluates them. *)

Definition exchange_call (ex : json) : res call :=
  name <~ subscript ex "name" ;;
  name_enc <~ quote name ;;
  _ <~ subscript ex "name" ;;                            (* print *)
  type <~ get ex "type" (JStr "direct") ;;
  durable <~ get ex "durable" (JBool true) ;;
  auto_delete <~ get ex "auto_delete" (JBool false) ;;
  arguments <~ get ex "arguments" (JObj []) ;;
  Ok (mkCall "PUT" ("/exchanges/" ++ vhost ++ "/" ++ name_enc)
        (JObj [("type", type); ("durable", durable);
               ("auto_delete", auto_delete); ("arguments", arguments)])).

Definition queue_call (q : json) : res call :=
  name <~ subscript q "name" ;;
  name_enc <~ quote name ;;
  _ <~ subscript q "name" ;;                             (* print *)
  durable <~ get q "durable" (JBool true) ;;
  auto_delete <~ get q "auto_delete" (JBool false) ;;
  arguments <~ get q "arguments" (JObj []) ;;
  Ok (mkCall "PUT" ("/queues/" ++ vhost ++ "/" ++ name_enc)
        (JObj [("durable", durable); ("auto_delete", auto_delete);
               ("arguments", arguments)])).

Definition binding_call (b : json) : res call :=
  source <~ subscript b "source" ;;
  src <~ quote source ;;
  destination <~ subscript b "destination" ;;
  dst <~ quote destination ;;
  rk <~ get b "routing_key" (JStr "") ;;
  _ <~ subscript b "source" ;;                           (* print *)
  _ <~ subscript b "destination" ;;
  arguments <~ get b "arguments" (JObj []) ;;
  Ok (mkCall "POST" ("/bindings/" ++ vhost ++ "/e/" ++ src ++ "/q/" ++ dst)
        (JObj [("routing_key", rk); ("arguments", arguments)])).

Definition policy_call (p : json) : res call :=
  name <~ subscript p "name" ;;
  name_enc <~ quote name ;;
  _ <~ subscript p "name" ;;                             (* print *)
  _ <~ subscript p "pattern" ;;
  pattern <~ subscript p "pattern" ;;
  definition <~ subscript p "definition" ;;
  apply_to <~ get p "apply_to" (JStr "queues") ;;
  priority <~ get p "priority" (JInt 0) ;;
  Ok (mkCall "PUT" ("/policies/" ++ vhost ++ "/" ++ name_enc)
        (JObj [("pattern", pattern); ("definition", definition);
               ("apply-to", apply_to); ("priority", priority)])).

(** The items of [for x in topology.get(kind, []):] *)
Definition entities (topology : json) (kind : string) : res (list json) :=
  v <~ get topology kind (JArr []) ;;
  iter v.

Section Handler.

Variable X : externals.

(** [json.loads(v)] *)
Definition loads (v : json) : res json :=
  match v with
  | JStr text =>
      match json_loads X text with
      | Some j => Ok j
      | None => Err JSONDecodeError
      end
  | _ => Err TypeError
  end.

(** [sm.get_secret_value(SecretId=secret_arn)] on a client for [region] *)
Definition secrets_get (region secret_arn : json) : M json :=
  fun h => (get_secret_value X h region secret_arn,
            (h ++ [SecretsGet region secret_arn])%list).

(** The request object [api] hands to [urlopen]. *)
Definition build_request (base_url auth method path : string)
    (body : option json) : request :=
  let url := base_url ++ path in
  let data :=
    match body with
    | Some b => if truthy b then Some b else None
    | None => None
    end in
  mkRequest method url data
    [("Content-Type", "application/json"); ("Authorization", "Basic " ++ auth)]
    15.

(** The inner function [api]; [base_url] and [auth] are the variables it
    closes over.  The handler reads the body of an [HTTPError] for its log
    line ([e.read()], line 75) before the bare [raise] of line 81: the error
    that leaves [api] has its body consumed and yields no text any more. *)
Definition api (base_url auth method path : string) (body : option json) : M Z :=
  let req := build_request base_url auth method path body in
  fun h =>
    match urlopen X h req with
    | Returns status resp_body => (Ok status, (h ++ [Http req])%list)
    | Raises (HTTPError code body_text) =>
        if (code =? 200) || (code =? 201) || (code =? 204)
        then (Ok code, (h ++ [Http req])%list)
        else (Err (HTTPError code ""), (h ++ [Http req])%list)
    | Raises e => (Err e, (h ++ [Http req])%list)
    end.

(** One iteration of a provisioning loop. *)
Definition apply_entity (base_url auth : string) (mk : json -> res call)
    (kind : string) (entity : json) (counts : list (string * Z))
    : M (list (string * Z)) :=
  c <- lift (mk entity) ;;
  _ <- api base_url auth (call_method c) (call_path c) (Some (call_body c)) ;;
  ret (incr kind counts).

(** [for x in topology.get(kind, []): ...] *)
Definition apply_kind (base_url auth : string) (topology : json)
    (mk : json -> res call) (kind : string) (counts : list (string * Z))
    : M (list (string * Z)) :=
  items <- lift (entities topology kind) ;;
  for_ items (apply_entity base_url auth mk kind) counts.

(** Lines 84-138: the provisioning pass and the value returned. *)
Definition provision (base_url auth : string) (topology : json) : M json :=
  let counts := [("exchanges", 0); ("queues", 0); ("bindings", 0); ("policies", 0)] in
  counts <- apply_kind base_url auth topology exchange_call "exchanges" counts ;;
  counts <- apply_kind base_url auth topology queue_call "queues" counts ;;
  counts <- apply_kind base_url auth topology binding_call "bindings" counts ;;
  counts <- apply_kind base_url auth topology policy_call "policies" counts ;;
  ret (JObj [("PhysicalResourceId", JStr physical_id);
             ("Data", JObj (map (fun kv => (fst kv, JStr (str_int (snd kv)))) counts))]).

(** Lines 49-55: the credentials in a decoded secret payload. *)
Definition credentials (secret_value : json) : res (json * json) :=
  u <~ get secret_value "username" JNull ;;
  username <~ (if truthy u then Ok u else get secret_value "Username" JNull) ;;
  p <~ get secret_value "password" JNull ;;
  password <~ (if truthy p then Ok p else get secret_value "Password" JNull) ;;
  if negb (truthy username) || negb (truthy password)
  then ks <~ keys secret_value ;; Err (ValueError ks)
  else Ok (username, password).

Definition base_url_of (broker_host : json) : string :=
  "https://" ++ fmt (py_str X) broker_host ++ "/api".

Definition auth_of (username password : json) : string :=
  b64encode (fmt (py_str X) username ++ ":" ++ fmt (py_str X) password).

(** Lines 39-61: everything between the [Delete] test and the provisioning
    pass.  Yields [base_url], [auth] and the decoded topology. *)
Definition connect (props : json) : M (string * string * json) :=
  let env_region :=
    match environ_region X with Some r => r | None => "us-east-2" end in
  region <- lift (get props "Region" (JStr env_region)) ;;
  secret_arn <- lift (subscript props "SecretArn") ;;
  broker_host <- lift (subscript props "BrokerHost") ;;
  topology_text <- lift (subscript props "Topology") ;;
  topology <- lift (loads topology_text) ;;
  response <- secrets_get region secret_arn ;;
  secret_string <- lift (subscript response "SecretString") ;;
  secret_value <- lift (loads secret_string) ;;
  cred <- lift (credentials secret_value) ;;
  let base_url := base_url_of broker_host in
  let auth := auth_of (fst cred) (snd cred) in
  ret (base_url, auth, topology).

Definition on_event (event : json) : M json :=
  _ <- lift (subscript event "RequestType") ;;                       (* print *)
  rp <- lift (get event "ResourceProperties" (JObj [])) ;;           (* print *)
  _ <- lift (keys rp) ;;
  request_type <- lift (subscript event "RequestType") ;;
  props <- lift (subscript event "ResourceProperties") ;;
  if eq_str request_type "Delete"
  then ret (JObj [("PhysicalResourceId", JStr physical_id)])
  else
    conn <- connect props ;;
    provision (fst (fst conn)) (snd (fst conn)) (snd conn).

(** *** Reference semantics of a provisioning pass

    A pass is a list of attempted calls, each either built or failing while
    it is built; [run_script] performs them one after the other and stops
    at the first exception. *)

Definition send (base_url auth : string) (c : call) : request :=
  build_request base_url auth (call_method c) (call_path c) (Some (call_body c)).

Definition requests (base_url auth : string) (cs : list call) : list request :=
  map (send base_url auth) cs.

Fixpoint run_script (base_url auth : string) (rs : list (res call))
    (h : history) : option exn * history :=
  match rs with
  | [] => (None, h)
  | Err e :: _ => (Some e, h)
  | Ok c :: rest =>
      match api base_url auth (call_method c) (call_path c) (Some (call_body c)) h with
      | (Ok _, h') => run_script base_url auth rest h'
      | (Err e, h') => (Some e, h')
      end
  end.

(** The outcome of [urlopen] counts as success for [api]. *)
Definition answer_ok (t : transport) : bool :=
  match t with
  | Returns _ _ => true
  | Raises (HTTPError code _) => (code =? 200) || (code =? 201) || (code =? 204)
  | Raises _ => false
  end.

(** The broker accepts every request of the list, issued in turn from [h]. *)
Fixpoint accepts (h : history) (rqs : list request) : bool :=
  match rqs with
  | [] => true
  | rq :: rest => answer_ok (urlopen X h rq) && accepts (h ++ [Http rq])%list rest
  end.

End Handler.

(** ** The pass a document asks for *)

Definition kind_script (topology : json) (mk : json -> res call) (kind : string)
    : list (res call) :=
  match entities topology kind with
  | Ok items => map mk items
  | Err e => [Err e]
  end.

(** Every attempted call of a pass, in the order the handler reaches it. *)
Definition script (topology : json) : list (res call) :=
  (kind_script topology exchange_call "exchanges"
   ++ kind_script topology queue_call "queues"
   ++ kind_script topology binding_call "bindings"
   ++ kind_script topology policy_call "policies")%list.

Fixpoint map_res {A B} (f : A -> res B) (l : list A) : res (list B) :=
  match l with
  | [] => Ok []
  | x :: rest => y <~ f x ;; ys <~ map_res f rest ;; Ok (y :: ys)
  end.

(** The apply order of the design: all exchanges, then all queues, then all
    bindings, then all policies, each kind in document order. *)
Definition plan (topology : json) : res (list call) :=
  exs <~ entities topology "exchanges" ;;
  ecs <~ map_res exchange_call exs ;;
  qs <~ entities topology "queues" ;;
  qcs <~ map_res queue_call qs ;;
  bs <~ entities topology "bindings" ;;
  bcs <~ map_res binding_call bs ;;
  ps <~ entities topology "policies" ;;
  pcs <~ map_res policy_call ps ;;
  Ok (ecs ++ qcs ++ bcs ++ pcs)%list.

(** Well-formed documents: a mapping whose four collections, where present,
    are arrays of mappings that carry their required fields. *)
Definition has_str (e : json) (k : string) : bool :=
  match e with
  | JObj fields => match assoc k fields with Some (JStr _) => true | _ => false end
  | _ => false
  end.

Definition has_key (e : json) (k : string) : bool :=
  match e with
  | JObj fields => match assoc k fields with Some _ => true | None => false end
  | _ => false
  end.

Definition wf_kind (topology : json) (kind : string) (ok : json -> bool) : bool :=
  match get topology kind (JArr []) with
  | Ok (JArr items) => forallb ok items
  | _ => false
  end.

Definition wf_exchange (e : json) : bool := has_str e "name".
Definition wf_queue (e : json) : bool := has_str e "name".
Definition wf_binding (e : json) : bool := has_str e "source" && has_str e "destination".
Definition wf_policy (e : json) : bool :=
  has_str e "name" && has_key e "pattern" && has_key e "definition".

Definition wf_topology (topology : json) : bool :=
  wf_kind topology "exchanges" wf_exchange
  && wf_kind topology "queues" wf_queue
  && wf_kind topology "bindings" wf_binding
  && wf_kind topology "policies" wf_policy.

(** The value a successful pass returns. *)
Definition apply_result (exchanges queues bindings policies : nat) : json :=
  JObj [("PhysicalResourceId", JStr physical_id);
        ("Data", JObj [("exchanges", JStr (str_int (Z.of_nat exchanges)));
                       ("queues", JStr (str_int (Z.of_nat queues)));
                       ("bindings", JStr (str_int (Z.of_nat bindings)));
                       ("policies", JStr (str_int (Z.of_nat policies)))])].

(** The outcome of a pass that returns [a] when no exception stops it. *)
Definition finish {A} (o : option exn * history) (a : A) : res A * history :=
  match o with
  | (None, h) => (Ok a, h)
  | (Some e, h) => (Err e, h)
  end.

(** A create or update event that gets as far as the provisioning pass:
    [connect] has produced [base_url], [auth] and the decoded document and
    left the history [h0]. *)
Definition starts_pass (X : externals) (event : json)
    (base_url auth : string) (topology : json) (h0 : history) : Prop :=
  exists request_type props,
    subscript event "RequestType" = Ok request_type
    /\ eq_str request_type "Delete" = false
    /\ subscript event "ResourceProperties" = Ok props
    /\ connect X props [] = (Ok (base_url, auth, topology), h0).

(** The value of an optional field: the document's when the key is there,
    the default otherwise. *)
Definition field_or (fields : list (string * json)) (k : string) (default : json) : json :=
  match assoc k fields with
  | Some v => v
  | None => default
  end.

(** A field of a secret payload holds a usable value. *)
Definition usable (fields : list (string * json)) (k : string) : bool :=
  truthy (field_or fields k JNull).

(** Percent-decoding, the inverse a server applies to a path segment. *)
Definition hex_value (c : ascii) : nat :=
  let n := nat_of_ascii c in
  if (n <? 58)%nat then (n - 48)%nat else (n - 55)%nat.

Fixpoint unquote_str (s : string) : string :=
  match s with
  | EmptyString => EmptyString
  | String c rest =>
      if Ascii.eqb c "%" then
        match rest with
        | String a (String b rest') =>
            String (ascii_of_nat (16 * hex_value a + hex_value b)) (unquote_str rest')
        | _ => String c (unquote_str rest)
        end
      else String c (unquote_str rest)
  end.

(** Characters that may occur in an encoded path segment. *)
Definition segment_char (c : ascii) : bool := always_safe c || Ascii.eqb c "%".

(** ** Concrete events, documents and worlds *)

Module Demo.

Definition dq : string := String (ascii_of_nat 34) EmptyString.
Definition q (s : string) : string := dq ++ s ++ dq.

(** The scenario document of the design, as text and decoded. *)
Definition orders_text : string :=
  "{" ++ q "exchanges" ++ ": [{" ++ q "name" ++ ": " ++ q "orders.ex" ++ ", "
      ++ q "type" ++ ": " ++ q "topic" ++ "}], "
      ++ q "queues" ++ ": [{" ++ q "name" ++ ": " ++ q "orders.q" ++ "}], "
      ++ q "bindings" ++ ": [{" ++ q "source" ++ ": " ++ q "orders.ex" ++ ", "
      ++ q "destination" ++ ": " ++ q "orders.q" ++ ", "
      ++ q "routing_key" ++ ": " ++ q "order.*" ++ "}]}".

Definition orders_doc : json :=
  JObj [("exchanges", JArr [JObj [("name", JStr "orders.ex"); ("type", JStr "topic")]]);
        ("queues", JArr [JObj [("name", JStr "orders.q")]]);
        ("bindings", JArr [JObj [("source", JStr "orders.ex");
                                 ("destination", JStr "orders.q");
                                 ("routing_key", JStr "order.*")]])].

(** The three calls of the scenario. *)
Definition orders_plan : list call :=
  [mkCall "PUT" "/exchanges/%2F/orders.ex"
     (JObj [("type", JStr "topic"); ("durable", JBool true);
            ("auto_delete", JBool false); ("arguments", JObj [])]);
   mkCall "PUT" "/queues/%2F/orders.q"
     (JObj [("durable", JBool true); ("auto_delete", JBool false);
            ("arguments", JObj [])]);
   mkCall "POST" "/bindings/%2F/e/orders.ex/q/orders.q"
     (JObj [("routing_key", JStr "order.*"); ("arguments", JObj [])])].

(** Two exchanges with the same name. *)
Definition twice_text : string :=
  "{" ++ q "exchanges" ++ ": [{" ++ q "name" ++ ": " ++ q "a" ++ "}, {"
      ++ q "name" ++ ": " ++ q "a" ++ "}]}".
Definition twice_doc : json :=
  JObj [("exchanges", JArr [JObj [("name", JStr "a")]; JObj [("name", JStr "a")]])].

(** A queue without a name after a good exchange. *)
Definition nameless_text : string :=
  "{" ++ q "exchanges" ++ ": [{" ++ q "name" ++ ": " ++ q "a" ++ "}], "
      ++ q "queues" ++ ": [{" ++ q "durable" ++ ": true}]}".
Definition nameless_doc : json :=
  JObj [("exchanges", JArr [JObj [("name", JStr "a")]]);
        ("queues", JArr [JObj [("durable", JBool true)]])].

(** Not JSON at all. *)
Definition broken_text : string := "{" ++ q "exchanges" ++ ": [".

Definition lower_secret_text : string :=
  "{" ++ q "username" ++ ": " ++ q "u" ++ ", " ++ q "password" ++ ": " ++ q "p" ++ "}".
Definition lower_secret : json := JObj [("username", JStr "u"); ("password", JStr "p")].

Definition upper_secret_text : string :=
  "{" ++ q "Username" ++ ": " ++ q "u" ++ ", " ++ q "Password" ++ ": " ++ q "p" ++ "}".
Definition upper_secret : json := JObj [("Username", JStr "u"); ("Password", JStr "p")].

Definition empty_user_secret : json := JObj [("username", JStr ""); ("password", JStr "p")].

(** [json.loads] restricted to the texts above. *)
Definition loads_table : list (string * json) :=
  [(orders_text, orders_doc); (twice_text, twice_doc);
   (nameless_text, nameless_doc);
   (lower_secret_text, lower_secret); (upper_secret_text, upper_secret)].

(** [str] on the scalars whose text is a fixed word or a decimal numeral. *)
Definition str_scalar (v : json) : string :=
  match v with
  | JNull => "None"
  | JBool true => "True"
  | JBool false => "False"
  | JInt n => str_int n
  | _ => ""
  end.

Definition world (secret_text : string) (broker : history -> request -> transport)
    : externals :=
  {| json_loads := fun text => assoc text loads_table;
     py_str := str_scalar;
     environ_region := Some "us-east-2";
     get_secret_value := fun _ _ _ => Ok (JObj [("SecretString", JStr secret_text)]);
     urlopen := broker |}.

(** Brokers. *)
Definition created : history -> request -> transport :=
  fun _ _ => Returns 201 "".
Definition no_content_as_error : history -> request -> transport :=
  fun _ _ => Raises (HTTPError 204 "").
Definition accepted_202 : history -> request -> transport :=
  fun _ _ => Returns 202 "".
Definition conflict_on_queues : history -> request -> transport :=
  fun _ rq =>
    if String.prefix "https://broker.example/api/queues/" (req_url rq)
    then Raises (HTTPError 409 "inequivalent arg 'durable'")
    else Returns 201 "".

Definition props (topology_text : string) : json :=
  JObj [("ServiceToken", JStr "arn:aws:lambda:us-east-2:1:function:provider");
        ("SecretArn", JStr "arn:aws:secretsmanager:us-east-2:1:secret:mq");
        ("BrokerHost", JStr "broker.example");
        ("Topology", JStr topology_text)].

Definition event (request_type topology_text : string) : json :=
  JObj [("RequestType", JStr request_type);
        ("ResourceProperties", props topology_text)].

Definition base_url : string := "https://broker.example/api".
Definition auth : string := "dTpw".
Definition after_secret : history :=
  [SecretsGet (JStr "us-east-2") (JStr "arn:aws:secretsmanager:us-east-2:1:secret:mq")].

End Demo.

(** ** The apply order as the design states it (section 4.3)

    Read off the document itself, without the handler's own accessors: the
    entities listed under each kind in the order of the document, exchanges
    first, then queues, then bindings, then policies, and for each entity
    the method and the path of its call. *)

Definition listed (fields : list (string * json)) (kind : string) : list json :=
  match assoc kind fields with
  | Some (JArr items) => items
  | _ => []
  end.

Definition text_of (entity : json) (k : string) : string :=
  match entity with
  | JObj fields =>
      match assoc k fields with
      | Some (JStr text) => text
      | _ => ""
      end
  | _ => ""
  end.

Definition exchange_target (e : json) : string * string :=
  ("PUT", "/exchanges/%2F/" ++ quote_str (text_of e "name")).

Definition queue_target (e : json) : string * string :=
  ("PUT", "/queues/%2F/" ++ quote_str (text_of e "name")).

Definition binding_target (e : json) : string * string :=
  ("POST", "/bindings/%2F/e/" ++ quote_str (text_of e "source")
           ++ "/q/" ++ quote_str (text_of e "destination")).

Definition policy_target (e : json) : string * string :=
  ("PUT", "/policies/%2F/" ++ quote_str (text_of e "name")).

Definition apply_order_of (fields : list (string * json)) : list (string * string) :=
  (map exchange_target (listed fields "exchanges")
   ++ map queue_target (listed fields "queues")
   ++ map binding_target (listed fields "bindings")
   ++ map policy_target (listed fields "policies"))%list.

(** Method and path of a call, method and URL of a request. *)
Definition call_target (c : call) : string * string := (call_method c, call_path c).
Definition target_of (rq : request) : string * string := (req_method rq, req_url rq).
Definition under (base_url : string) (t : string * string) : string * string :=
  (fst t, base_url ++ snd t).

(** The characters [urllib.parse.quote] documents as never quoted. *)
Definition plain_chars : string :=
  "ABCDEFGHIJKLMNOPQRSTUVWXYZabcdefghijklmnopqrstuvwxyz0123456789_.-~".

Definition plain_char (c : ascii) : bool :=
  existsb (Ascii.eqb c) (list_ascii_of_string plain_chars).

(** What the four loop bodies build. *)
Inductive call_shape (c : call) : Prop :=
| ExchangePut (name : string) (body : list (string * json))
    (Hm : call_method c = "PUT")
    (Hp : call_path c = ("/exchanges/%2F/" ++ quote_str name)%string)
    (Hb : call_body c = JObj body) (Hne : body <> [])
| QueuePut (name : string) (body : list (string * json))
    (Hm : call_method c = "PUT")
    (Hp : call_path c = ("/queues/%2F/" ++ quote_str name)%string)
    (Hb : call_body c = JObj body) (Hne : body <> [])
| BindingPost (source destination : string) (body : list (string * json))
    (Hm : call_method c = "POST")
    (Hp : call_path c = ("/bindings/%2F/e/" ++ quote_str source
                         ++ "/q/" ++ quote_str destination)%string)
    (Hb : call_body c = JObj body) (Hne : body <> [])
| PolicyPut (name : string) (body : list (string * json))
    (Hm : call_method c = "PUT")
    (Hp : call_path c = ("/policies/%2F/" ++ quote_str name)%string)
    (Hb : call_body c = JObj body) (Hne : body <> []).

(** Further worlds: other answers of the secret store and of the broker. *)

Module Cases.

(** A secret whose user name is the empty text. *)
Definition blank_secret_text : string :=
  "{" ++ Demo.q "username" ++ ": " ++ Demo.q "" ++ ", "
      ++ Demo.q "password" ++ ": " ++ Demo.q "p" ++ "}".

(** A document with one entity of each kind and names that need encoding. *)
Definition full_text : string :=
  "{" ++ Demo.q "exchanges" ++ ": [{" ++ Demo.q "name" ++ ": " ++ Demo.q "eu/orders" ++ "}], "
      ++ Demo.q "queues" ++ ": [{" ++ Demo.q "name" ++ ": " ++ Demo.q "eu orders" ++ "}], "
      ++ Demo.q "bindings" ++ ": [{" ++ Demo.q "source" ++ ": " ++ Demo.q "eu/orders" ++ ", "
      ++ Demo.q "destination" ++ ": " ++ Demo.q "eu orders" ++ "}], "
      ++ Demo.q "policies" ++ ": [{" ++ Demo.q "name" ++ ": " ++ Demo.q "ttl" ++ ", "
      ++ Demo.q "pattern" ++ ": " ++ Demo.q "^eu" ++ ", "
      ++ Demo.q "definition" ++ ": {" ++ Demo.q "message-ttl" ++ ": 60000}}]}".

Definition full_doc : json :=
  JObj [("exchanges", JArr [JObj [("name", JStr "eu/orders")]]);
        ("queues", JArr [JObj [("name", JStr "eu orders")]]);
        ("bindings", JArr [JObj [("source", JStr "eu/orders");
                                 ("destination", JStr "eu orders")]]);
        ("policies", JArr [JObj [("name", JStr "ttl"); ("pattern", JStr "^eu");
                                 ("definition", JObj [("message-ttl", JInt 60000)])]])].

(** Documents of the wrong shape. *)
Definition list_text : string := "[]".
Definition null_queues_text : string :=
  "{" ++ Demo.q "exchanges" ++ ": [{" ++ Demo.q "name" ++ ": " ++ Demo.q "a" ++ "}], "
      ++ Demo.q "queues" ++ ": null}".
Definition null_queues_doc : json :=
  JObj [("exchanges", JArr [JObj [("name", JStr "a")]]); ("queues", JNull)].
Definition empty_text : string := "{}".

(** Two exchanges and two queues, to tell the order within a kind. *)
Definition ordered_text : string :=
  "{" ++ Demo.q "policies" ++ ": [{" ++ Demo.q "name" ++ ": " ++ Demo.q "ttl" ++ ", "
      ++ Demo.q "pattern" ++ ": " ++ Demo.q ".*" ++ ", "
      ++ Demo.q "definition" ++ ": {" ++ Demo.q "message-ttl" ++ ": 60000}}], "
      ++ Demo.q "bindings" ++ ": [{" ++ Demo.q "source" ++ ": " ++ Demo.q "first" ++ ", "
      ++ Demo.q "destination" ++ ": " ++ Demo.q "q1" ++ "}], "
      ++ Demo.q "queues" ++ ": [{" ++ Demo.q "name" ++ ": " ++ Demo.q "q1" ++ "}, {"
      ++ Demo.q "name" ++ ": " ++ Demo.q "q2" ++ "}], "
      ++ Demo.q "exchanges" ++ ": [{" ++ Demo.q "name" ++ ": " ++ Demo.q "first" ++ "}, {"
      ++ Demo.q "name" ++ ": " ++ Demo.q "second" ++ "}]}".

Definition ordered_doc : json :=
  JObj [("policies", JArr [JObj [("name", JStr "ttl"); ("pattern", JStr ".*");
                                 ("definition", JObj [("message-ttl", JInt 60000)])]]);
        ("bindings", JArr [JObj [("source", JStr "first"); ("destination", JStr "q1")]]);
        ("queues", JArr [JObj [("name", JStr "q1")]; JObj [("name", JStr "q2")]]);
        ("exchanges", JArr [JObj [("name", JStr "first")];
                            JObj [("name", JStr "second")]])].

Definition loads_table : list (string * json) :=
  [(ordered_text, ordered_doc);
   (blank_secret_text, Demo.empty_user_secret); (full_text, full_doc);
   (list_text, JArr []); (null_queues_text, null_queues_doc);
   (empty_text, JObj [])]
  ++ Demo.loads_table.

Definition world (store : history -> json -> json -> res json)
    (broker : history -> request -> transport) : externals :=
  {| json_loads := fun text => assoc text loads_table;
     py_str := Demo.str_scalar;
     environ_region := None;
     get_secret_value := store;
     urlopen := broker |}.

(** Secret stores. *)
Definition store (secret_text : string) : history -> json -> json -> res json :=
  fun _ _ _ => Ok (JObj [("SecretString", JStr secret_text)]).
Definition store_down : history -> json -> json -> res json :=
  fun _ _ _ => Err (OtherError "ResourceNotFoundException").
Definition binary_store : history -> json -> json -> res json :=
  fun _ _ _ => Ok (JObj [("SecretBinary", JStr "dTpw")]).

(** A broker that stops answering once it is asked about a queue. *)
Definition silent_on_queues : history -> request -> transport :=
  fun _ rq =>
    if String.prefix "https://broker.example/api/queues/" (req_url rq)
    then Raises (OtherError "timed out")
    else Returns 204 "".

End Cases.

(** Discharges [starts_pass] on a concrete event by running [connect]. *)
Ltac run_connect := do 2 eexists; repeat split; vm_compute; reflexivity.

(** * Properties *)

Local Open Scope list_scope.

(** ** Histories *)

Lemma http_calls_app (a b : history) :
  http_calls (a ++ b) = http_calls a ++ http_calls b.
Proof.
  induction a as [|[r s|rq] a IH]; simpl; [reflexivity|exact IH|now rewrite IH].
Qed.

Lemma http_calls_map (rqs : list request) : http_calls (map Http rqs) = rqs.
Proof.
  induction rqs as [|rq rqs IH]; simpl; [reflexivity|now rewrite IH].
Qed.

(** ** The client *)

Section Client.

Variable X : externals.
Variables base_url auth : string.

Lemma api_history method path body h :
  snd (api X base_url auth method path body h)
  = h ++ [Http (build_request base_url auth method path body)].
Proof.
  unfold api.
  destruct (urlopen X h _) as [status b|[]]; try reflexivity.
  destruct (_ || _); reflexivity.
Qed.

Lemma api_answer method path body h :
  is_ok (fst (api X base_url auth method path body h))
  = answer_ok (urlopen X h (build_request base_url auth method path body)).
Proof.
  unfold api, answer_ok.
  destruct (urlopen X h _) as [status b|[]]; try reflexivity.
  destruct (_ || _); reflexivity.
Qed.

Lemma api_accepted c h :
  answer_ok (urlopen X h (send base_url auth c)) = true ->
  exists status,
    api X base_url auth (call_method c) (call_path c) (Some (call_body c)) h
    = (Ok status, h ++ [Http (send base_url auth c)]).
Proof.
  intros Hok.
  pose proof (api_history (call_method c) (call_path c) (Some (call_body c)) h) as Hh.
  pose proof (api_answer (call_method c) (call_path c) (Some (call_body c)) h) as Ha.
  fold (send base_url auth c) in Hh, Ha. rewrite Hok in Ha.
  destruct (api X base_url auth _ _ _ h) as [[status|e] h']; simpl in *.
  - exists status. now subst.
  - discriminate.
Qed.

Lemma api_rejected c h code body_text :
  urlopen X h (send base_url auth c) = Raises (HTTPError code body_text) ->
  (code =? 200) || (code =? 201) || (code =? 204) = false ->
  api X base_url auth (call_method c) (call_path c) (Some (call_body c)) h
  = (Err (HTTPError code ""), h ++ [Http (send base_url auth c)]).
Proof.
  intros Hu Hc. unfold api. fold (send base_url auth c).
  rewrite Hu, Hc. reflexivity.
Qed.

End Client.

(** ** The provisioning pass against its reference semantics *)

Section Pass.

Variable X : externals.
Variables base_url auth : string.

Lemma run_script_app rs1 rs2 h :
  run_script X base_url auth (rs1 ++ rs2) h
  = match run_script X base_url auth rs1 h with
    | (None, h') => run_script X base_url auth rs2 h'
    | (Some e, h') => (Some e, h')
    end.
Proof.
  revert h. induction rs1 as [|[c|e] rs1 IH]; intros h; simpl; try reflexivity.
  destruct (api X base_url auth _ _ _ h) as [[status|e] h']; [apply IH|reflexivity].
Qed.

Lemma for_run mk kind items : forall counts h,
  for_ items (apply_entity X base_url auth mk kind) counts h
  = finish (run_script X base_url auth (map mk items) h)
      (Nat.iter (List.length items) (incr kind) counts).
Proof.
  induction items as [|x items IH]; intros counts h; simpl; [reflexivity|].
  unfold bind at 1. unfold apply_entity at 1. unfold bind, lift, ret.
  destruct (mk x) as [c|e]; [|reflexivity].
  destruct (api X base_url auth _ _ _ h) as [[status|e] h']; [|reflexivity].
  fold (Nat.iter (List.length items) (incr kind) counts).
  rewrite IH. f_equal.
  change (incr kind (Nat.iter (List.length items) (incr kind) counts))
    with (Nat.iter (S (List.length items)) (incr kind) counts).
  now rewrite Nat.iter_succ_r.
Qed.

Lemma apply_kind_run topology mk kind counts h :
  apply_kind X base_url auth topology mk kind counts h
  = finish (run_script X base_url auth (kind_script topology mk kind) h)
      (Nat.iter (List.length (kind_script topology mk kind)) (incr kind) counts).
Proof.
  unfold apply_kind, kind_script, bind, lift.
  destruct (entities topology kind) as [items|e]; [|reflexivity].
  rewrite for_run, List.length_map. reflexivity.
Qed.

Lemma count_exchanges n a rest :
  Nat.iter n (incr "exchanges") (("exchanges", a) :: rest)
  = ("exchanges", a + Z.of_nat n) :: rest.
Proof.
  induction n as [|n IH].
  - simpl. now rewrite Z.add_0_r.
  - rewrite Nat.iter_succ, IH. cbn [incr String.eqb Ascii.eqb Bool.eqb].
    do 2 f_equal. lia.
Qed.

Lemma count_queues n a b rest :
  Nat.iter n (incr "queues") (("exchanges", a) :: ("queues", b) :: rest)
  = ("exchanges", a) :: ("queues", b + Z.of_nat n) :: rest.
Proof.
  induction n as [|n IH].
  - simpl. now rewrite Z.add_0_r.
  - rewrite Nat.iter_succ, IH. cbn [incr String.eqb Ascii.eqb Bool.eqb].
    do 3 f_equal. lia.
Qed.

Lemma count_bindings n a b c rest :
  Nat.iter n (incr "bindings")
    (("exchanges", a) :: ("queues", b) :: ("bindings", c) :: rest)
  = ("exchanges", a) :: ("queues", b) :: ("bindings", c + Z.of_nat n) :: rest.
Proof.
  induction n as [|n IH].
  - simpl. now rewrite Z.add_0_r.
  - rewrite Nat.iter_succ, IH. cbn [incr String.eqb Ascii.eqb Bool.eqb].
    do 4 f_equal. lia.
Qed.

Lemma count_policies n a b c d rest :
  Nat.iter n (incr "policies")
    (("exchanges", a) :: ("queues", b) :: ("bindings", c) :: ("policies", d) :: rest)
  = ("exchanges", a) :: ("queues", b) :: ("bindings", c)
    :: ("policies", d + Z.of_nat n) :: rest.
Proof.
  induction n as [|n IH].
  - simpl. now rewrite Z.add_0_r.
  - rewrite Nat.iter_succ, IH. cbn [incr String.eqb Ascii.eqb Bool.eqb].
    do 5 f_equal. lia.
Qed.

(** The pass of the handler is the reference run of the document's script. *)
Lemma provision_run topology h :
  provision X base_url auth topology h
  = finish (run_script X base_url auth (script topology) h)
      (apply_result
         (List.length (kind_script topology exchange_call "exchanges"))
         (List.length (kind_script topology queue_call "queues"))
         (List.length (kind_script topology binding_call "bindings"))
         (List.length (kind_script topology policy_call "policies"))).
Proof.
  unfold provision, script.
  unfold bind at 1. rewrite apply_kind_run, run_script_app.
  destruct (run_script X base_url auth (kind_script topology exchange_call _) h)
    as [[e|] h1]; [reflexivity|]. cbn [finish].
  unfold bind at 1. rewrite apply_kind_run, run_script_app.
  destruct (run_script X base_url auth (kind_script topology queue_call _) h1)
    as [[e|] h2]; [reflexivity|]. cbn [finish].
  unfold bind at 1. rewrite apply_kind_run, run_script_app.
  destruct (run_script X base_url auth (kind_script topology binding_call _) h2)
    as [[e|] h3]; [reflexivity|]. cbn [finish].
  unfold bind at 1. rewrite apply_kind_run.
  destruct (run_script X base_url auth (kind_script topology policy_call _) h3)
    as [[e|] h4]; [reflexivity|]. cbn [finish]. unfold ret.
  rewrite count_exchanges, count_queues, count_bindings, count_policies.
  reflexivity.
Qed.

End Pass.

(** ** Runs of a script *)

Section Runs.

Variable X : externals.
Variables base_url auth : string.

(** Calls the broker accepts are all issued, and the run goes on. *)
Lemma run_accepted cs : forall rest h,
  accepts X h (requests base_url auth cs) = true ->
  run_script X base_url auth (map Ok cs ++ rest) h
  = run_script X base_url auth rest (h ++ map Http (requests base_url auth cs)).
Proof.
  induction cs as [|c cs IH]; intros rest h Hacc; simpl in *.
  - now rewrite app_nil_r.
  - apply andb_prop in Hacc as [Hc Hcs].
    destruct (api_accepted X base_url auth c h Hc) as [status Hapi].
    rewrite Hapi, IH by exact Hcs.
    now rewrite <- app_assoc.
Qed.

(** Whatever the broker answers, the requests issued are an initial part of
    the script's, and all of them when no exception stopped the run. *)
Lemma run_initial cs : forall h,
  exists n,
    snd (run_script X base_url auth (map Ok cs) h)
    = h ++ map Http (requests base_url auth (firstn n cs))
    /\ (fst (run_script X base_url auth (map Ok cs) h) = None ->
        n = List.length cs /\ accepts X h (requests base_url auth cs) = true).
Proof.
  induction cs as [|c cs IH]; intros h; simpl.
  - exists 0%nat. simpl. rewrite app_nil_r. auto.
  - pose proof (api_history X base_url auth (call_method c) (call_path c)
                  (Some (call_body c)) h) as Hh.
    pose proof (api_answer X base_url auth (call_method c) (call_path c)
                  (Some (call_body c)) h) as Ha.
    fold (send base_url auth c) in Hh, Ha.
    destruct (api X base_url auth _ _ _ h) as [[status|e] h']; simpl in Hh, Ha; subst h'.
    + destruct (IH (h ++ [Http (send base_url auth c)])) as [n [Hn Hall]].
      exists (S n). simpl. rewrite Hn, <- app_assoc. split; [reflexivity|].
      intros Hnone. destruct (Hall Hnone) as [-> ->].
      now rewrite <- Ha.
    + exists 1%nat. simpl. split; [now destruct cs|discriminate].
Qed.

(** A run that ends without exception went through built calls only. *)
Lemma run_none_built rs : forall h,
  fst (run_script X base_url auth rs h) = None ->
  Forall (fun r => is_ok r = true) rs.
Proof.
  induction rs as [|[c|e] rs IH]; intros h Hnone; simpl in *.
  - constructor.
  - constructor; [reflexivity|].
    destruct (api X base_url auth _ _ _ h) as [[status|e] h']; [|discriminate].
    now apply (IH h').
  - discriminate.
Qed.

End Runs.

(** ** Documents, scripts and plans *)

Lemma map_res_map {A B} (f : A -> res B) (l : list A) (ys : list B) :
  map_res f l = Ok ys -> map f l = map Ok ys.
Proof.
  revert ys. induction l as [|x l IH]; intros ys H; simpl in *.
  - now inversion H.
  - destruct (f x) as [y|e]; [|discriminate]. simpl in H.
    destruct (map_res f l) as [ys'|e]; [|discriminate]. simpl in H.
    inversion H; subst. simpl. now rewrite (IH ys').
Qed.

Lemma map_res_forall {A B} (f : A -> res B) (l : list A) :
  (forall x, In x l -> is_ok (f x) = true) -> exists ys, map_res f l = Ok ys.
Proof.
  induction l as [|x l IH]; intros H; simpl.
  - now exists [].
  - destruct (f x) as [y|e] eqn:E.
    + destruct IH as [ys Hys]; [intros; apply H; now right|].
      rewrite Hys. simpl. now exists (y :: ys).
    + specialize (H x (or_introl eq_refl)). now rewrite E in H.
Qed.

(** When every call of the document can be built, the script is the plan. *)
Lemma plan_script topology cs :
  plan topology = Ok cs -> script topology = map Ok cs.
Proof.
  unfold plan, script, kind_script.
  destruct (entities topology "exchanges") as [exs|]; [simpl|discriminate].
  destruct (map_res exchange_call exs) as [ecs|] eqn:E1; [simpl|discriminate].
  destruct (entities topology "queues") as [qs|]; [simpl|discriminate].
  destruct (map_res queue_call qs) as [qcs|] eqn:E2; [simpl|discriminate].
  destruct (entities topology "bindings") as [bs|]; [simpl|discriminate].
  destruct (map_res binding_call bs) as [bcs|] eqn:E3; [simpl|discriminate].
  destruct (entities topology "policies") as [ps|]; [simpl|discriminate].
  destruct (map_res policy_call ps) as [pcs|] eqn:E4; [simpl|discriminate].
  intros H; inversion H; subst.
  rewrite !map_app.
  now rewrite (map_res_map _ _ _ E1), (map_res_map _ _ _ E2),
    (map_res_map _ _ _ E3), (map_res_map _ _ _ E4).
Qed.

Lemma has_str_subscript e k :
  has_str e k = true -> exists s, subscript e k = Ok (JStr s).
Proof.
  unfold has_str, subscript. destruct e; try discriminate.
  destruct (assoc k fields) as [[]|]; try discriminate. intros _. now eexists.
Qed.

Lemma has_key_subscript e k :
  has_key e k = true -> exists v, subscript e k = Ok v.
Proof.
  unfold has_key, subscript. destruct e; try discriminate.
  destruct (assoc k fields); try discriminate. intros _. now eexists.
Qed.

Lemma has_str_get e k k' d :
  has_str e k = true -> exists v, get e k' d = Ok v.
Proof.
  unfold has_str, get. destruct e; try discriminate. intros _.
  destruct (assoc k' fields); now eexists.
Qed.

Lemma wf_exchange_call e : wf_exchange e = true -> is_ok (exchange_call e) = true.
Proof.
  unfold wf_exchange, exchange_call. intros H.
  destruct (has_str_subscript _ _ H) as [s Hs].
  destruct (has_str_get e "name" "type" (JStr "direct") H) as [v1 H1].
  destruct (has_str_get e "name" "durable" (JBool true) H) as [v2 H2].
  destruct (has_str_get e "name" "auto_delete" (JBool false) H) as [v3 H3].
  destruct (has_str_get e "name" "arguments" (JObj []) H) as [v4 H4].
  rewrite Hs, H1, H2, H3, H4. reflexivity.
Qed.

Lemma wf_queue_call e : wf_queue e = true -> is_ok (queue_call e) = true.
Proof.
  unfold wf_queue, queue_call. intros H.
  destruct (has_str_subscript _ _ H) as [s Hs].
  destruct (has_str_get e "name" "durable" (JBool true) H) as [v2 H2].
  destruct (has_str_get e "name" "auto_delete" (JBool false) H) as [v3 H3].
  destruct (has_str_get e "name" "arguments" (JObj []) H) as [v4 H4].
  rewrite Hs, H2, H3, H4. reflexivity.
Qed.

Lemma wf_binding_call e : wf_binding e = true -> is_ok (binding_call e) = true.
Proof.
  unfold wf_binding, binding_call. intros H.
  apply andb_prop in H as [Hsrc Hdst].
  destruct (has_str_subscript _ _ Hsrc) as [s Hs].
  destruct (has_str_subscript _ _ Hdst) as [d Hd].
  destruct (has_str_get e "source" "routing_key" (JStr "") Hsrc) as [v1 H1].
  destruct (has_str_get e "source" "arguments" (JObj []) Hsrc) as [v2 H2].
  rewrite Hs, Hd, H1, H2. reflexivity.
Qed.

Lemma wf_policy_call e : wf_policy e = true -> is_ok (policy_call e) = true.
Proof.
  unfold wf_policy, policy_call. intros H.
  apply andb_prop in H as [H Hdef]. apply andb_prop in H as [Hname Hpat].
  destruct (has_str_subscript _ _ Hname) as [s Hs].
  destruct (has_key_subscript _ _ Hpat) as [pat Hp].
  destruct (has_key_subscript _ _ Hdef) as [def Hd].
  destruct (has_str_get e "name" "apply_to" (JStr "queues") Hname) as [v1 H1].
  destruct (has_str_get e "name" "priority" (JInt 0) Hname) as [v2 H2].
  rewrite Hs, Hp, Hd, H1, H2. reflexivity.
Qed.

Lemma wf_kind_calls topology kind ok (mk : json -> res call) :
  (forall e, ok e = true -> is_ok (mk e) = true) ->
  wf_kind topology kind ok = true ->
  exists items cs, entities topology kind = Ok items /\ map_res mk items = Ok cs.
Proof.
  unfold wf_kind, entities. intros Hmk H.
  destruct (get topology kind (JArr [])) as [[]|]; try discriminate.
  simpl. rewrite forallb_forall in H.
  destruct (map_res_forall mk items) as [cs Hcs]; [intros; apply Hmk; now apply H|].
  now exists items, cs.
Qed.

(** A well-formed document has a plan. *)
Lemma wf_topology_plan topology :
  wf_topology topology = true -> exists cs, plan topology = Ok cs.
Proof.
  unfold wf_topology. intros H.
  apply andb_prop in H as [H Hp]. apply andb_prop in H as [H Hb].
  apply andb_prop in H as [He Hq].
  destruct (wf_kind_calls _ _ _ _ wf_exchange_call He) as (exs & ecs & E1 & C1).
  destruct (wf_kind_calls _ _ _ _ wf_queue_call Hq) as (qs & qcs & E2 & C2).
  destruct (wf_kind_calls _ _ _ _ wf_binding_call Hb) as (bs & bcs & E3 & C3).
  destruct (wf_kind_calls _ _ _ _ wf_policy_call Hp) as (ps & pcs & E4 & C4).
  unfold plan. rewrite E1; simpl. rewrite C1; simpl. rewrite E2; simpl.
  rewrite C2; simpl. rewrite E3; simpl. rewrite C3; simpl. rewrite E4; simpl.
  rewrite C4; simpl. now eexists.
Qed.

(** ** From the event to the pass *)

Section Event.

Variable X : externals.

(** [connect] contacts the secret store at most once and never the broker. *)
Lemma connect_history props h :
  snd (connect X props h) = h
  \/ exists region arn, snd (connect X props h) = h ++ [SecretsGet region arn].
Proof.
  unfold connect, bind, lift, secrets_get, ret.
  destruct (get props "Region" _); [|now left].
  destruct (subscript props "SecretArn"); [|now left].
  destruct (subscript props "BrokerHost"); [|now left].
  destruct (subscript props "Topology"); [|now left].
  destruct (loads X _); [|now left].
  right. eexists _, _.
  destruct (get_secret_value X h _ _); [|reflexivity].
  destruct (subscript _ "SecretString"); [|reflexivity].
  destruct (loads X _); [|reflexivity].
  destruct (credentials _); reflexivity.
Qed.

Lemma connect_no_http props h :
  http_calls (snd (connect X props h)) = http_calls h.
Proof.
  destruct (connect_history props h) as [->|(region & arn & ->)]; [reflexivity|].
  rewrite http_calls_app. simpl. now rewrite app_nil_r.
Qed.

(** A create or update event runs the pass from where [connect] stopped. *)
Lemma on_event_pass event base_url auth topology h0 :
  starts_pass X event base_url auth topology h0 ->
  on_event X event [] = provision X base_url auth topology h0.
Proof.
  intros (rt & props & Hrt & Hdel & Hprops & Hconn).
  assert (Hobj : exists fields, props = JObj fields).
  { unfold connect, bind, lift in Hconn.
    destruct props; try (simpl in Hconn; discriminate). now eexists. }
  destruct Hobj as [fields ->].
  unfold on_event, bind, lift.
  rewrite Hrt.
  assert (Hget : get event "ResourceProperties" (JObj []) = Ok (JObj fields)).
  { unfold subscript in Hprops. unfold get. destruct event; try discriminate.
    destruct (assoc _ _); [exact Hprops|discriminate]. }
  rewrite Hget. cbn [keys]. rewrite Hprops, Hdel, Hconn. reflexivity.
Qed.

End Event.

(** ** The Management API client (C1) *)

(** C1, counterexample.  A status outside 200, 201 and 204 that [urlopen]
    hands back as a normal response is not turned into a failure: the broker
    answers 202 and [api] returns 202. *)
Lemma api_returns_202 :
  urlopen (Demo.world Demo.lower_secret_text Demo.accepted_202) []
    (build_request Demo.base_url Demo.auth "PUT" "/queues/%2F/orders.q"
       (Some (JObj [("durable", JBool true)])))
  = Returns 202 ""
  /\ ~ In 202 [200; 201; 204]
  /\ api (Demo.world Demo.lower_secret_text Demo.accepted_202)
       Demo.base_url Demo.auth "PUT" "/queues/%2F/orders.q"
       (Some (JObj [("durable", JBool true)])) []
     = (Ok 202,
        [Http (build_request Demo.base_url Demo.auth "PUT" "/queues/%2F/orders.q"
                 (Some (JObj [("durable", JBool true)])))]).
Proof.
  split; [reflexivity|]. split; [|reflexivity].
  simpl. intros [H|[H|[H|[]]]]; discriminate.
Qed.

(** C1, as amended.  Every call of [api] issues exactly one request (no
    retry).  A response delivered normally is a success and its status is
    returned, whatever the status.  A response delivered as an HTTP-level
    error is a success with the status returned when the status is 200, 201
    or 204, and otherwise the call fails with that error, which carries the
    status code; its body has been read for the log line before it is raised
    again, so the error that reaches the caller yields no body text. *)
Theorem api_status_normalization (X : externals)
    (base_url auth method path : string) (body : option json) (h : history) :
  snd (api X base_url auth method path body h)
  = h ++ [Http (build_request base_url auth method path body)]
  /\ (forall status b,
        urlopen X h (build_request base_url auth method path body) = Returns status b ->
        fst (api X base_url auth method path body h) = Ok status)
  /\ (forall code b,
        urlopen X h (build_request base_url auth method path body)
        = Raises (HTTPError code b) ->
        In code [200; 201; 204] ->
        fst (api X base_url auth method path body h) = Ok code)
  /\ (forall code b,
        urlopen X h (build_request base_url auth method path body)
        = Raises (HTTPError code b) ->
        ~ In code [200; 201; 204] ->
        fst (api X base_url auth method path body h) = Err (HTTPError code "")).
Proof.
  split; [apply api_history|].
  unfold api. repeat split; intros ? b Hu.
  - rewrite Hu. reflexivity.
  - intros Hin. rewrite Hu.
    assert (E : (code =? 200) || (code =? 201) || (code =? 204) = true).
    { simpl in Hin. destruct Hin as [<-|[<-|[<-|[]]]]; reflexivity. }
    rewrite E. reflexivity.
  - intros Hnot. rewrite Hu.
    assert (E : (code =? 200) || (code =? 201) || (code =? 204) = false).
    { apply not_true_is_false. intros E. apply Hnot. simpl.
      apply orb_prop in E as [E|E]; [apply orb_prop in E as [E|E]|];
        apply Z.eqb_eq in E; auto. }
    rewrite E. reflexivity.
Qed.

Lemma api_status_normalization_witness :
  fst (api (Demo.world Demo.lower_secret_text Demo.created)
         Demo.base_url Demo.auth "PUT" "/queues/%2F/orders.q" None []) = Ok 201
  /\ fst (api (Demo.world Demo.lower_secret_text Demo.no_content_as_error)
            Demo.base_url Demo.auth "PUT" "/queues/%2F/orders.q" None []) = Ok 204
  /\ fst (api (Demo.world Demo.lower_secret_text Demo.conflict_on_queues)
            Demo.base_url Demo.auth "PUT" "/queues/%2F/orders.q" None [])
     = Err (HTTPError 409 "").
Proof.
  split; [|split].
  - exact (proj1 (proj2 (api_status_normalization
                           (Demo.world Demo.lower_secret_text Demo.created)
                           Demo.base_url Demo.auth "PUT" "/queues/%2F/orders.q" None []))
             201 "" eq_refl).
  - refine (proj1 (proj2 (proj2 (api_status_normalization
                           (Demo.world Demo.lower_secret_text Demo.no_content_as_error)
                           Demo.base_url Demo.auth "PUT" "/queues/%2F/orders.q" None [])))
              204 "" eq_refl _).
    simpl. auto.
  - refine (proj2 (proj2 (proj2 (api_status_normalization
                           (Demo.world Demo.lower_secret_text Demo.conflict_on_queues)
                           Demo.base_url Demo.auth "PUT" "/queues/%2F/orders.q" None [])))
              409 "inequivalent arg 'durable'" eq_refl _).
    simpl. intros [H|[H|[H|[]]]]; discriminate.
Defined.

(** ** Teardown (C3, C10) *)

Section Teardown.

Variable X : externals.

Lemma on_event_delete event fields h :
  subscript event "RequestType" = Ok (JStr "Delete") ->
  subscript event "ResourceProperties" = Ok (JObj fields) ->
  on_event X event h = (Ok (JObj [("PhysicalResourceId", JStr physical_id)]), h).
Proof.
  intros Hrt Hprops. unfold on_event, bind, lift.
  rewrite Hrt.
  assert (Hget : get event "ResourceProperties" (JObj []) = Ok (JObj fields)).
  { unfold subscript in Hprops. unfold get. destruct event; try discriminate.
    destruct (assoc _ _); [exact Hprops|discriminate]. }
  rewrite Hget. cbn [keys]. rewrite Hprops. reflexivity.
Qed.

Lemma on_event_token event h v t :
  on_event X event h = (Ok v, t) ->
  subscript v "PhysicalResourceId" = Ok (JStr physical_id).
Proof.
  unfold on_event, bind, lift.
  destruct (subscript event "RequestType") as [rt|]; [|discriminate].
  destruct (get event "ResourceProperties" _) as [rp|]; [|discriminate].
  destruct (keys rp); [|discriminate].
  destruct (subscript event "ResourceProperties") as [props|]; [|discriminate].
  destruct (eq_str rt "Delete").
  - unfold ret. intros H; inversion H; subst. reflexivity.
  - destruct (connect X props h) as [[conn|e] h0]; [|discriminate].
    rewrite provision_run.
    destruct (run_script X _ _ _ h0) as [[e|] h1]; simpl; [discriminate|].
    intros H; inversion H; subst. reflexivity.
Qed.

End Teardown.

(** C3.  A [Delete] event (with its [ResourceProperties] mapping, as the
    invoking framework sends it) adds nothing to the history, so no HTTP
    call is made, and returns exactly [{PhysicalResourceId: token}], without
    [Data]; the token is the one every successful invocation returns, for
    any event and any state of the outside world. *)
Theorem delete_returns_token (X : externals) (event : json)
    (fields : list (string * json)) (h : history) :
  subscript event "RequestType" = Ok (JStr "Delete") ->
  subscript event "ResourceProperties" = Ok (JObj fields) ->
  http_calls (snd (on_event X event h)) = http_calls h
  /\ snd (on_event X event h) = h
  /\ fst (on_event X event h) = Ok (JObj [("PhysicalResourceId", JStr physical_id)])
  /\ subscript (JObj [("PhysicalResourceId", JStr physical_id)]) "Data"
     = Err (KeyError "Data")
  /\ forall X' event' h' v t,
       on_event X' event' h' = (Ok v, t) ->
       subscript v "PhysicalResourceId" = Ok (JStr physical_id).
Proof.
  intros Hrt Hprops.
  rewrite (on_event_delete X event fields h Hrt Hprops). simpl.
  repeat split. intros X' event' h' v t. apply on_event_token.
Qed.

Lemma delete_returns_token_witness :
  fst (on_event (Demo.world Demo.lower_secret_text Demo.created)
         (Demo.event "Delete" Demo.orders_text) [])
  = Ok (JObj [("PhysicalResourceId", JStr physical_id)])
  /\ subscript
       (JObj [("PhysicalResourceId", JStr "rabbitmq-topology-v1");
              ("Data", JObj [("exchanges", JStr "1"); ("queues", JStr "1");
                             ("bindings", JStr "1"); ("policies", JStr "0")])])
       "PhysicalResourceId"
     = Ok (JStr physical_id).
Proof.
  pose proof (delete_returns_token
                (Demo.world Demo.lower_secret_text Demo.created)
                (Demo.event "Delete" Demo.orders_text) _ [] eq_refl eq_refl)
    as (_ & _ & Hres & _ & Htoken).
  split; [exact Hres|].
  apply (Htoken (Demo.world Demo.lower_secret_text Demo.created)
           (Demo.event "Create" Demo.orders_text) [] _
           (snd (on_event (Demo.world Demo.lower_secret_text Demo.created)
                   (Demo.event "Create" Demo.orders_text) []))).
  reflexivity.
Defined.

(** C10.  On a [Delete] event the outcome does not depend on the content of
    the [ResourceProperties] mapping nor on the outside world: for any two
    mappings and any two worlds the handler returns the same success and
    leaves the history as it was, so the secret store is not contacted.  It
    does so in particular when [connect], run on the same properties, would
    raise (fields absent, topology text that does not parse). *)
Theorem delete_ignores_properties (X X' : externals) (event event' : json)
    (fields fields' : list (string * json)) (h : history) :
  subscript event "RequestType" = Ok (JStr "Delete") ->
  subscript event "ResourceProperties" = Ok (JObj fields) ->
  subscript event' "RequestType" = Ok (JStr "Delete") ->
  subscript event' "ResourceProperties" = Ok (JObj fields') ->
  on_event X event h = on_event X' event' h
  /\ is_ok (fst (on_event X event h)) = true
  /\ snd (on_event X event h) = h
  /\ (forall e h', connect X (JObj fields) h = (Err e, h') ->
      is_ok (fst (on_event X event h)) = true).
Proof.
  intros Hrt Hprops Hrt' Hprops'.
  rewrite (on_event_delete X event fields h Hrt Hprops).
  rewrite (on_event_delete X' event' fields' h Hrt' Hprops').
  repeat split.
Qed.

Lemma delete_ignores_properties_witness :
  on_event (Demo.world Demo.lower_secret_text Demo.created)
    (JObj [("RequestType", JStr "Delete"); ("ResourceProperties", JObj [])]) []
  = on_event (Demo.world Demo.upper_secret_text Demo.conflict_on_queues)
      (Demo.event "Delete" Demo.broken_text) []
  /\ fst (connect (Demo.world Demo.upper_secret_text Demo.conflict_on_queues)
            (Demo.props Demo.broken_text) [])
     = Err JSONDecodeError
  /\ fst (connect (Demo.world Demo.lower_secret_text Demo.created) (JObj []) [])
     = Err (KeyError "SecretArn").
Proof.
  split; [|split; reflexivity].
  exact (proj1 (delete_ignores_properties
                  (Demo.world Demo.lower_secret_text Demo.created)
                  (Demo.world Demo.upper_secret_text Demo.conflict_on_queues)
                  (JObj [("RequestType", JStr "Delete"); ("ResourceProperties", JObj [])])
                  (Demo.event "Delete" Demo.broken_text)
                  [] _ [] eq_refl eq_refl eq_refl eq_refl)).
Defined.

(** ** The apply order (C2), fail-fast (C4) and the result (C6) *)

Section Driver.

Variable X : externals.
Variable event : json.
Variables base_url auth : string.
Variable topology : json.
Variable h0 : history.
Hypothesis Hstart : starts_pass X event base_url auth topology h0.

Lemma pass_no_http_before : http_calls h0 = [].
Proof.
  destruct Hstart as (rt & props & _ & _ & _ & Hconn).
  pose proof (connect_no_http X props []) as H.
  now rewrite Hconn in H.
Qed.

Lemma on_event_run :
  on_event X event []
  = finish (run_script X base_url auth (script topology) h0)
      (apply_result
         (List.length (kind_script topology exchange_call "exchanges"))
         (List.length (kind_script topology queue_call "queues"))
         (List.length (kind_script topology binding_call "bindings"))
         (List.length (kind_script topology policy_call "policies"))).
Proof.
  rewrite (on_event_pass X event base_url auth topology h0 Hstart).
  apply provision_run.
Qed.

Lemma on_event_initial cs :
  plan topology = Ok cs ->
  exists n,
    http_calls (snd (on_event X event [])) = firstn n (requests base_url auth cs)
    /\ (is_ok (fst (on_event X event [])) = true ->
        http_calls (snd (on_event X event [])) = requests base_url auth cs).
Proof.
  intros Hplan. rewrite on_event_run, (plan_script _ _ Hplan).
  destruct (run_initial X base_url auth cs h0) as [n [Hn Hall]].
  exists n.
  destruct (run_script X base_url auth (map Ok cs) h0) as [[e|] h1];
    simpl in *; subst h1;
    rewrite http_calls_app, pass_no_http_before, http_calls_map; simpl.
  - split; [symmetry; apply firstn_map|discriminate].
  - destruct (Hall eq_refl) as [-> _]. rewrite firstn_all.
    split; [|reflexivity]. unfold requests.
    now rewrite <- (List.length_map (send base_url auth) cs), firstn_all.
Qed.

Lemma on_event_abort pre c post code body_text :
  plan topology = Ok (pre ++ c :: post) ->
  accepts X h0 (requests base_url auth pre) = true ->
  urlopen X (h0 ++ map Http (requests base_url auth pre)) (send base_url auth c)
  = Raises (HTTPError code body_text) ->
  (code =? 200) || (code =? 201) || (code =? 204) = false ->
  on_event X event []
  = (Err (HTTPError code ""),
     h0 ++ map Http (requests base_url auth (pre ++ [c]))).
Proof.
  intros Hplan Hacc Hu Hcode.
  rewrite on_event_run, (plan_script _ _ Hplan), map_app.
  rewrite (run_accepted X base_url auth pre _ h0 Hacc). simpl.
  rewrite (api_rejected X base_url auth c _ code body_text Hu Hcode). simpl.
  unfold requests. rewrite !map_app, app_assoc. reflexivity.
Qed.

Lemma script_all_built :
  Forall (fun r => is_ok r = true) (script topology) ->
  exists exs qs bs ps,
    entities topology "exchanges" = Ok exs
    /\ entities topology "queues" = Ok qs
    /\ entities topology "bindings" = Ok bs
    /\ entities topology "policies" = Ok ps
    /\ List.length (kind_script topology exchange_call "exchanges") = List.length exs
    /\ List.length (kind_script topology queue_call "queues") = List.length qs
    /\ List.length (kind_script topology binding_call "bindings") = List.length bs
    /\ List.length (kind_script topology policy_call "policies") = List.length ps.
Proof.
  unfold script, kind_script. intros H.
  apply Forall_app in H as [H1 H]. apply Forall_app in H as [H2 H].
  apply Forall_app in H as [H3 H4].
  destruct (entities topology "exchanges") as [exs|];
    [|inversion H1; discriminate].
  destruct (entities topology "queues") as [qs|];
    [|inversion H2; discriminate].
  destruct (entities topology "bindings") as [bs|];
    [|inversion H3; discriminate].
  destruct (entities topology "policies") as [ps|];
    [|inversion H4; discriminate].
  exists exs, qs, bs, ps. rewrite !List.length_map. repeat split.
Qed.

Lemma on_event_counts v h :
  on_event X event [] = (Ok v, h) ->
  exists exs qs bs ps,
    entities topology "exchanges" = Ok exs
    /\ entities topology "queues" = Ok qs
    /\ entities topology "bindings" = Ok bs
    /\ entities topology "policies" = Ok ps
    /\ v = apply_result (List.length exs) (List.length qs)
             (List.length bs) (List.length ps).
Proof.
  rewrite on_event_run. intros Hrun.
  pose proof (run_none_built X base_url auth (script topology) h0) as Hbuilt.
  destruct (run_script X base_url auth (script topology) h0) as [[e|] h1];
    simpl in Hrun; [discriminate|].
  destruct (script_all_built (Hbuilt eq_refl))
    as (exs & qs & bs & ps & E1 & E2 & E3 & E4 & L1 & L2 & L3 & L4).
  exists exs, qs, bs, ps. rewrite L1, L2, L3, L4 in Hrun.
  inversion Hrun. auto.
Qed.

Lemma on_event_accepted cs :
  plan topology = Ok cs ->
  accepts X h0 (requests base_url auth cs) = true ->
  exists v,
    on_event X event [] = (Ok v, h0 ++ map Http (requests base_url auth cs)).
Proof.
  intros Hplan Hacc. rewrite on_event_run, (plan_script _ _ Hplan).
  rewrite <- (app_nil_r (map Ok cs)).
  rewrite (run_accepted X base_url auth cs [] h0 Hacc). simpl. now eexists.
Qed.

Lemma on_event_unbuilt pre e rest :
  script topology = map Ok pre ++ Err e :: rest ->
  accepts X h0 (requests base_url auth pre) = true ->
  on_event X event [] = (Err e, h0 ++ map Http (requests base_url auth pre)).
Proof.
  intros Hscript Hacc. rewrite on_event_run, Hscript.
  rewrite (run_accepted X base_url auth pre _ h0 Hacc). reflexivity.
Qed.

End Driver.

Lemma get_obj fields k d : get (JObj fields) k d = Ok (field_or fields k d).
Proof. unfold get, field_or. destruct (assoc k fields); reflexivity. Qed.

(** The calls the handler builds for well-formed entities go where the
    design says. *)
Lemma exchange_call_target e c :
  wf_exchange e = true -> exchange_call e = Ok c -> call_target c = exchange_target e.
Proof.
  unfold wf_exchange. intros Hwf. destruct (has_str_subscript _ _ Hwf) as [s Hs].
  destruct e; try discriminate.
  unfold exchange_call. rewrite Hs, !get_obj. simpl. intros H; inversion H.
  unfold call_target, exchange_target, text_of. simpl.
  unfold subscript in Hs. destruct (assoc "name" fields); [|discriminate].
  now inversion Hs.
Qed.

Lemma queue_call_target e c :
  wf_queue e = true -> queue_call e = Ok c -> call_target c = queue_target e.
Proof.
  unfold wf_queue. intros Hwf. destruct (has_str_subscript _ _ Hwf) as [s Hs].
  destruct e; try discriminate.
  unfold queue_call. rewrite Hs, !get_obj. simpl. intros H; inversion H.
  unfold call_target, queue_target, text_of. simpl.
  unfold subscript in Hs. destruct (assoc "name" fields); [|discriminate].
  now inversion Hs.
Qed.

Lemma binding_call_target e c :
  wf_binding e = true -> binding_call e = Ok c -> call_target c = binding_target e.
Proof.
  unfold wf_binding. intros Hwf. apply andb_prop in Hwf as [Hsrc Hdst].
  destruct (has_str_subscript _ _ Hsrc) as [s Hs].
  destruct (has_str_subscript _ _ Hdst) as [d Hd].
  destruct e; try discriminate.
  unfold binding_call. rewrite Hs, Hd, !get_obj. simpl. intros H; inversion H.
  unfold call_target, binding_target, text_of. simpl.
  unfold subscript in Hs, Hd.
  destruct (assoc "source" fields); [|discriminate].
  destruct (assoc "destination" fields); [|discriminate].
  now inversion Hs; inversion Hd.
Qed.

Lemma policy_call_target e c :
  wf_policy e = true -> policy_call e = Ok c -> call_target c = policy_target e.
Proof.
  unfold wf_policy. intros Hwf.
  apply andb_prop in Hwf as [Hwf Hdef]. apply andb_prop in Hwf as [Hname Hpat].
  destruct (has_str_subscript _ _ Hname) as [s Hs].
  destruct (has_key_subscript _ _ Hpat) as [pat Hp].
  destruct (has_key_subscript _ _ Hdef) as [def Hd].
  destruct e; try discriminate.
  unfold policy_call. rewrite Hs, Hp, Hd, !get_obj. simpl. intros H; inversion H.
  unfold call_target, policy_target, text_of. simpl.
  unfold subscript in Hs. destruct (assoc "name" fields); [|discriminate].
  now inversion Hs.
Qed.

Lemma map_res_targets (mk : json -> res call) (ok : json -> bool)
    (target : json -> string * string) :
  (forall e c, ok e = true -> mk e = Ok c -> call_target c = target e) ->
  forall items cs,
    forallb ok items = true -> map_res mk items = Ok cs ->
    map call_target cs = map target items.
Proof.
  intros Hmk. induction items as [|x items IH]; intros cs Hok H; simpl in *.
  - now inversion H.
  - apply andb_prop in Hok as [Hx Hitems].
    destruct (mk x) as [c|] eqn:E; [simpl in H|discriminate].
    destruct (map_res mk items) as [cs'|]; [simpl in H|discriminate].
    inversion H; subst. simpl. now rewrite (Hmk x c Hx E), (IH cs' Hitems eq_refl).
Qed.

Lemma wf_kind_listed fields kind ok :
  wf_kind (JObj fields) kind ok = true ->
  entities (JObj fields) kind = Ok (listed fields kind)
  /\ forallb ok (listed fields kind) = true.
Proof.
  unfold wf_kind, entities, get, listed.
  destruct (assoc kind fields) as [[]|]; simpl; try discriminate; auto.
Qed.

(** The plan of a well-formed document follows the order of the design. *)
Lemma wf_plan_targets fields :
  wf_topology (JObj fields) = true ->
  exists cs,
    plan (JObj fields) = Ok cs /\ map call_target cs = apply_order_of fields.
Proof.
  intros Hwf. destruct (wf_topology_plan _ Hwf) as [cs Hplan].
  exists cs. split; [exact Hplan|].
  unfold wf_topology in Hwf.
  apply andb_prop in Hwf as [Hwf Hp]. apply andb_prop in Hwf as [Hwf Hb].
  apply andb_prop in Hwf as [He Hq].
  apply wf_kind_listed in He as [E1 F1]. apply wf_kind_listed in Hq as [E2 F2].
  apply wf_kind_listed in Hb as [E3 F3]. apply wf_kind_listed in Hp as [E4 F4].
  unfold plan in Hplan. rewrite E1 in Hplan. simpl in Hplan.
  destruct (map_res exchange_call _) as [ecs|] eqn:M1; [simpl in Hplan|discriminate].
  rewrite E2 in Hplan. simpl in Hplan.
  destruct (map_res queue_call _) as [qcs|] eqn:M2; [simpl in Hplan|discriminate].
  rewrite E3 in Hplan. simpl in Hplan.
  destruct (map_res binding_call _) as [bcs|] eqn:M3; [simpl in Hplan|discriminate].
  rewrite E4 in Hplan. simpl in Hplan.
  destruct (map_res policy_call _) as [pcs|] eqn:M4; [simpl in Hplan|discriminate].
  inversion Hplan; subst cs. unfold apply_order_of. rewrite !map_app.
  rewrite (map_res_targets _ _ _ exchange_call_target _ _ F1 M1),
    (map_res_targets _ _ _ queue_call_target _ _ F2 M2),
    (map_res_targets _ _ _ binding_call_target _ _ F3 M3),
    (map_res_targets _ _ _ policy_call_target _ _ F4 M4).
  reflexivity.
Qed.

Lemma requests_targets base_url auth cs :
  map target_of (requests base_url auth cs)
  = map (under base_url) (map call_target cs).
Proof. unfold requests. rewrite !map_map. reflexivity. Qed.

(** C2.  For a well-formed document, take the entities the document lists
    under [exchanges], then those under [queues], then those under
    [bindings], then those under [policies], each list in the order of the
    document, and for each entity the method and URL of its call.  In every
    create or update invocation, whatever the broker answers, the methods
    and URLs of the HTTP requests issued are an initial part of that list,
    in that order, and the whole list when the invocation succeeds.  The
    list depends on the document alone; the requests themselves are those
    of the plan. *)
Theorem apply_order (fields : list (string * json)) :
  wf_topology (JObj fields) = true ->
  exists cs,
    plan (JObj fields) = Ok cs
    /\ map call_target cs = apply_order_of fields
    /\ forall X event base_url auth h0,
         starts_pass X event base_url auth (JObj fields) h0 ->
         exists n,
           http_calls (snd (on_event X event []))
           = firstn n (requests base_url auth cs)
           /\ map target_of (http_calls (snd (on_event X event [])))
              = firstn n (map (under base_url) (apply_order_of fields))
           /\ (is_ok (fst (on_event X event [])) = true ->
               http_calls (snd (on_event X event [])) = requests base_url auth cs
               /\ map target_of (http_calls (snd (on_event X event [])))
                  = map (under base_url) (apply_order_of fields)).
Proof.
  intros Hwf. destruct (wf_plan_targets fields Hwf) as (cs & Hplan & Htargets).
  exists cs. split; [exact Hplan|]. split; [exact Htargets|].
  intros X event base_url auth h0 Hstart.
  destruct (on_event_initial X event base_url auth (JObj fields) h0 Hstart cs Hplan)
    as [n [Hn Hfull]].
  exists n. split; [exact Hn|]. split.
  - now rewrite Hn, <- firstn_map, requests_targets, Htargets.
  - intros Hok. rewrite (Hfull Hok). split; [reflexivity|].
    now rewrite requests_targets, Htargets.
Qed.

Lemma apply_order_witness :
  map target_of
    (http_calls
       (snd (on_event (Cases.world (Cases.store Demo.lower_secret_text) Demo.created)
               (Demo.event "Create" Cases.ordered_text) [])))
  = [("PUT", "https://broker.example/api/exchanges/%2F/first");
     ("PUT", "https://broker.example/api/exchanges/%2F/second");
     ("PUT", "https://broker.example/api/queues/%2F/q1");
     ("PUT", "https://broker.example/api/queues/%2F/q2");
     ("POST", "https://broker.example/api/bindings/%2F/e/first/q/q1");
     ("PUT", "https://broker.example/api/policies/%2F/ttl")]
  /\ map target_of
       (http_calls
          (snd (on_event
                  (Cases.world (Cases.store Demo.lower_secret_text)
                     Demo.conflict_on_queues)
                  (Demo.event "Create" Cases.ordered_text) [])))
     = [("PUT", "https://broker.example/api/exchanges/%2F/first");
        ("PUT", "https://broker.example/api/exchanges/%2F/second");
        ("PUT", "https://broker.example/api/queues/%2F/q1")].
Proof.
  destruct (apply_order
              [("policies", JArr [JObj [("name", JStr "ttl"); ("pattern", JStr ".*");
                                        ("definition",
                                         JObj [("message-ttl", JInt 60000)])]]);
               ("bindings", JArr [JObj [("source", JStr "first");
                                        ("destination", JStr "q1")]]);
               ("queues", JArr [JObj [("name", JStr "q1")]; JObj [("name", JStr "q2")]]);
               ("exchanges", JArr [JObj [("name", JStr "first")];
                                   JObj [("name", JStr "second")]])]
              eq_refl) as (cs & _ & _ & Hall).
  split.
  - destruct (Hall (Cases.world (Cases.store Demo.lower_secret_text) Demo.created)
                (Demo.event "Create" Cases.ordered_text) Demo.base_url Demo.auth
                Demo.after_secret ltac:(run_connect)) as (n & _ & _ & Hfull).
    exact (proj2 (Hfull eq_refl)).
  - destruct (Hall (Cases.world (Cases.store Demo.lower_secret_text)
                      Demo.conflict_on_queues)
                (Demo.event "Create" Cases.ordered_text) Demo.base_url Demo.auth
                Demo.after_secret ltac:(run_connect)) as (n & _ & Hpart & _).
    rewrite Hpart.
    assert (Hn : n = 3%nat).
    { apply (f_equal (@List.length _)) in Hpart. rewrite List.length_firstn in Hpart.
      vm_compute in Hpart. destruct n as [|[|[|[|n]]]]; try discriminate. reflexivity. }
    now rewrite Hn.
Defined.

(** C4.  When the broker accepts the calls [pre] of the plan and answers the
    next call [c] with an HTTP error whose status is not 200, 201 or 204, the
    invocation raises that error (its body already read); the history is the one [connect] left
    followed by the requests of [pre] and of [c] and nothing else: no
    compensating call for [pre], no call for any entity after [c]. *)
Theorem fail_fast (X : externals) (event : json) (base_url auth : string)
    (topology : json) (h0 : history) (pre : list call) (c : call)
    (post : list call) (code : Z) (body_text : string) :
  starts_pass X event base_url auth topology h0 ->
  plan topology = Ok (pre ++ c :: post) ->
  accepts X h0 (requests base_url auth pre) = true ->
  urlopen X (h0 ++ map Http (requests base_url auth pre)) (send base_url auth c)
  = Raises (HTTPError code body_text) ->
  ~ In code [200; 201; 204] ->
  on_event X event []
  = (Err (HTTPError code ""),
     h0 ++ map Http (requests base_url auth (pre ++ [c])))
  /\ http_calls (snd (on_event X event [])) = requests base_url auth (pre ++ [c]).
Proof.
  intros Hstart Hplan Hacc Hu Hnot.
  assert (E : (code =? 200) || (code =? 201) || (code =? 204) = false).
  { apply not_true_is_false. intros E. apply Hnot. simpl.
    apply orb_prop in E as [E|E]; [apply orb_prop in E as [E|E]|];
      apply Z.eqb_eq in E; auto. }
  rewrite (on_event_abort X event base_url auth topology h0 Hstart
             pre c post code body_text Hplan Hacc Hu E).
  split; [reflexivity|]. simpl.
  rewrite http_calls_app, (pass_no_http_before X event base_url auth topology h0 Hstart).
  apply http_calls_map.
Qed.

Lemma fail_fast_witness :
  on_event (Demo.world Demo.upper_secret_text Demo.conflict_on_queues)
    (Demo.event "Update" Demo.orders_text) []
  = (Err (HTTPError 409 ""),
     Demo.after_secret
     ++ map Http (requests Demo.base_url Demo.auth (firstn 2 Demo.orders_plan))).
Proof.
  refine (proj1 (fail_fast (Demo.world Demo.upper_secret_text Demo.conflict_on_queues)
                   (Demo.event "Update" Demo.orders_text) Demo.base_url Demo.auth
                   Demo.orders_doc Demo.after_secret
                   (firstn 1 Demo.orders_plan) (nth 1 Demo.orders_plan (mkCall "" "" JNull))
                   (skipn 2 Demo.orders_plan) 409 "inequivalent arg 'durable'"
                   ltac:(run_connect)
                   eq_refl eq_refl eq_refl _)).
  simpl. intros [H|[H|[H|[]]]]; discriminate.
Defined.

(** C6.  A create or update invocation that succeeds returns the token and a
    [Data] mapping with, for each kind, the number of entities of that kind
    in the document, written as decimal text.  For the scenario document of
    the design and a broker that accepts the three requests, the invocation
    issues exactly the exchange PUT, the queue PUT and the binding POST, in
    that order, and returns the counts 1, 1, 1 and 0. *)
Theorem apply_result_counts (X : externals) (event : json)
    (base_url auth : string) (topology : json) (h0 : history) :
  starts_pass X event base_url auth topology h0 ->
  (forall v h,
     on_event X event [] = (Ok v, h) ->
     exists exs qs bs ps,
       entities topology "exchanges" = Ok exs
       /\ entities topology "queues" = Ok qs
       /\ entities topology "bindings" = Ok bs
       /\ entities topology "policies" = Ok ps
       /\ v = JObj [("PhysicalResourceId", JStr physical_id);
                    ("Data",
                     JObj [("exchanges", JStr (str_int (Z.of_nat (List.length exs))));
                           ("queues", JStr (str_int (Z.of_nat (List.length qs))));
                           ("bindings", JStr (str_int (Z.of_nat (List.length bs))));
                           ("policies", JStr (str_int (Z.of_nat (List.length ps))))])])
  /\ (topology = Demo.orders_doc ->
      accepts X h0 (requests base_url auth Demo.orders_plan) = true ->
      on_event X event []
      = (Ok (JObj [("PhysicalResourceId", JStr physical_id);
                   ("Data", JObj [("exchanges", JStr "1"); ("queues", JStr "1");
                                  ("bindings", JStr "1"); ("policies", JStr "0")])]),
         h0 ++ map Http (requests base_url auth Demo.orders_plan))).
Proof.
  intros Hstart. split.
  - intros v h Hrun.
    exact (on_event_counts X event base_url auth topology h0 Hstart v h Hrun).
  - intros -> Hacc.
    destruct (on_event_accepted X event base_url auth Demo.orders_doc h0 Hstart
                Demo.orders_plan eq_refl Hacc) as [v Hv].
    destruct (on_event_counts X event base_url auth Demo.orders_doc h0 Hstart v _ Hv)
      as (exs & qs & bs & ps & E1 & E2 & E3 & E4 & ->).
    rewrite Hv. cbv in E1, E2, E3, E4.
    inversion E1; inversion E2; inversion E3; inversion E4; subst.
    reflexivity.
Qed.

Lemma apply_result_counts_witness :
  on_event (Demo.world Demo.lower_secret_text Demo.created)
    (Demo.event "Create" Demo.orders_text) []
  = (Ok (JObj [("PhysicalResourceId", JStr physical_id);
               ("Data", JObj [("exchanges", JStr "1"); ("queues", JStr "1");
                              ("bindings", JStr "1"); ("policies", JStr "0")])]),
     Demo.after_secret ++ map Http (requests Demo.base_url Demo.auth Demo.orders_plan)).
Proof.
  exact (proj2 (apply_result_counts (Demo.world Demo.lower_secret_text Demo.created)
                  (Demo.event "Create" Demo.orders_text) Demo.base_url Demo.auth
                  Demo.orders_doc Demo.after_secret
                  ltac:(run_connect))
           eq_refl eq_refl).
Defined.

(** ** Request bodies and paths (C7, C8) *)

Lemma subscript_quote_obj fields k (B : Type) (rest : string -> res B) (b : B) :
  (v <~ subscript (JObj fields) k ;; s <~ quote v ;; rest s) = Ok b ->
  exists s, assoc k fields = Some (JStr s) /\ rest (quote_str s) = Ok b.
Proof.
  unfold subscript. destruct (assoc k fields) as [[]|]; simpl; try discriminate.
  intros H. now exists s.
Qed.



Lemma quote_byte_chars c :
  forallb segment_char (list_ascii_of_string (quote_byte c)) = true.
Proof. destruct c as [[] [] [] [] [] [] [] []]; reflexivity. Qed.

Lemma unquote_quote_byte c rest :
  unquote_str (quote_byte c ++ rest)%string = String c (unquote_str rest).
Proof. destruct c as [[] [] [] [] [] [] [] []]; reflexivity. Qed.

Lemma list_ascii_app (a b : string) :
  list_ascii_of_string (a ++ b)%string
  = list_ascii_of_string a ++ list_ascii_of_string b.
Proof. induction a as [|c a IH]; simpl; [reflexivity|now rewrite IH]. Qed.

Lemma quote_str_chars s :
  forallb segment_char (list_ascii_of_string (quote_str s)) = true.
Proof.
  induction s as [|c s IH]; simpl; [reflexivity|].
  now rewrite list_ascii_app, forallb_app, quote_byte_chars, IH.
Qed.

Lemma unquote_quote_str s : unquote_str (quote_str s) = s.
Proof.
  induction s as [|c s IH]; simpl; [reflexivity|].
  now rewrite unquote_quote_byte, IH.
Qed.

Lemma segment_char_plain c :
  segment_char c = true ->
  c <> "/"%char /\ c <> " "%char /\ (nat_of_ascii c < 128)%nat.
Proof.
  destruct c as [[] [] [] [] [] [] [] []]; intros H;
    try discriminate H; (split; [discriminate|split; [discriminate|cbv; lia]]).
Qed.



(** ** Credentials (C9) *)

(** C9, counterexample.  The payload has both a [username] and a [password]
    key, yet extraction fails, because the user name is the empty text. *)
Lemma empty_username_rejected :
  assoc "username" [("username", JStr ""); ("password", JStr "p")] = Some (JStr "")
  /\ assoc "password" [("username", JStr ""); ("password", JStr "p")] = Some (JStr "p")
  /\ credentials Demo.empty_user_secret = Err (ValueError ["username"; "password"]).
Proof. repeat split. Qed.

(** C9, as amended.  Extraction fails exactly when, for either field, neither
    the lower-case nor the capitalized key holds a usable value, that is a
    value that is present and not empty (not null, false, zero or an empty
    text or container); the failure is a [ValueError] that lists the keys
    found.  A payload with capitalized keys and usable values is accepted
    with the same credentials as the payload with lower-case keys. *)
Theorem credentials_case_variants (fields : list (string * json)) :
  (is_ok (credentials (JObj fields)) = false <->
   usable fields "username" || usable fields "Username" = false
   \/ usable fields "password" || usable fields "Password" = false)
  /\ (forall e, credentials (JObj fields) = Err e -> e = ValueError (map fst fields))
  /\ (forall u p,
        truthy u = true -> truthy p = true ->
        credentials (JObj [("Username", u); ("Password", p)]) = Ok (u, p)
        /\ credentials (JObj [("username", u); ("password", p)]) = Ok (u, p)).
Proof.
  split; [|split].
  - unfold credentials, usable. rewrite !get_obj. simpl.
    destruct (truthy (field_or fields "username" JNull)) eqn:U1; simpl;
      [|rewrite ?get_obj; simpl;
        destruct (truthy (field_or fields "Username" JNull)) eqn:U2; simpl];
      (destruct (truthy (field_or fields "password" JNull)) eqn:P1; simpl;
       [|rewrite ?get_obj; simpl;
         destruct (truthy (field_or fields "Password" JNull)) eqn:P2; simpl]);
      rewrite ?U1, ?U2, ?P1, ?P2; simpl; intuition congruence.
  - unfold credentials. rewrite !get_obj. simpl.
    destruct (truthy (field_or fields "username" JNull)); simpl;
      [|rewrite ?get_obj; simpl];
      (destruct (truthy (field_or fields "password" JNull)); simpl;
       [|rewrite ?get_obj; simpl]);
      match goal with
      | |- context [if ?b then _ else _] => destruct b
      end; intros e H; inversion H; reflexivity.
  - intros u p Hu Hp. unfold credentials. cbn [get assoc String.eqb Ascii.eqb Bool.eqb rbind].
    cbn [truthy]. rewrite Hu, Hp. simpl. rewrite Hu, Hp. auto.
Qed.

Lemma credentials_case_variants_witness :
  credentials Demo.upper_secret = Ok (JStr "u", JStr "p")
  /\ credentials Demo.lower_secret = Ok (JStr "u", JStr "p")
  /\ is_ok (credentials (JObj [("Username", JStr "u")])) = false.
Proof.
  split; [|split].
  - exact (proj1 (proj2 (proj2 (credentials_case_variants []))
                    (JStr "u") (JStr "p") eq_refl eq_refl)).
  - exact (proj2 (proj2 (proj2 (credentials_case_variants []))
                    (JStr "u") (JStr "p") eq_refl eq_refl)).
  - apply (proj2 (proj1 (credentials_case_variants [("Username", JStr "u")]))).
    right. reflexivity.
Defined.

(** ** Documents that are not well formed (C5) *)

(** C5, counterexample.  A document that names the exchange [a] twice is not
    rejected: the invocation succeeds, issues the same PUT twice and counts
    two exchanges. *)
Lemma duplicate_names_applied :
  on_event (Demo.world Demo.lower_secret_text Demo.created)
    (Demo.event "Create" Demo.twice_text) []
  = (Ok (JObj [("PhysicalResourceId", JStr physical_id);
               ("Data", JObj [("exchanges", JStr "2"); ("queues", JStr "0");
                              ("bindings", JStr "0"); ("policies", JStr "0")])]),
     Demo.after_secret
     ++ map Http
          (requests Demo.base_url Demo.auth
             [mkCall "PUT" "/exchanges/%2F/a"
                (JObj [("type", JStr "direct"); ("durable", JBool true);
                       ("auto_delete", JBool false); ("arguments", JObj [])]);
              mkCall "PUT" "/exchanges/%2F/a"
                (JObj [("type", JStr "direct"); ("durable", JBool true);
                       ("auto_delete", JBool false); ("arguments", JObj [])])])).
Proof. reflexivity. Qed.

(** C5, as amended.  (1) A topology text that [json.loads] rejects makes the
    invocation raise [JSONDecodeError] before the secret store or the broker
    is contacted.  (2) An entity without a required field raises [KeyError]
    for that field when its call is built; in an invocation this happens
    when the pass reaches the entity, after the calls for all earlier
    entities have been issued and accepted, and no further call follows.
    (3) Names are not compared: a document that lists the same exchange
    twice is applied with two identical calls. *)
Theorem malformed_documents (X : externals) (event : json)
    (base_url auth : string) (topology : json) (h0 : history) :
  (forall request_type fields secret_arn broker_host text h,
     subscript event "RequestType" = Ok request_type ->
     eq_str request_type "Delete" = false ->
     subscript event "ResourceProperties" = Ok (JObj fields) ->
     assoc "SecretArn" fields = Some secret_arn ->
     assoc "BrokerHost" fields = Some broker_host ->
     assoc "Topology" fields = Some (JStr text) ->
     json_loads X text = None ->
     on_event X event h = (Err JSONDecodeError, h))
  /\ (forall fields,
        (assoc "name" fields = None ->
         exchange_call (JObj fields) = Err (KeyError "name")
         /\ queue_call (JObj fields) = Err (KeyError "name")
         /\ policy_call (JObj fields) = Err (KeyError "name"))
        /\ (assoc "source" fields = None ->
            binding_call (JObj fields) = Err (KeyError "source"))
        /\ (forall source,
              assoc "source" fields = Some (JStr source) ->
              assoc "destination" fields = None ->
              binding_call (JObj fields) = Err (KeyError "destination"))
        /\ (forall name,
              assoc "name" fields = Some (JStr name) ->
              assoc "pattern" fields = None ->
              policy_call (JObj fields) = Err (KeyError "pattern"))
        /\ (forall name pattern,
              assoc "name" fields = Some (JStr name) ->
              assoc "pattern" fields = Some pattern ->
              assoc "definition" fields = None ->
              policy_call (JObj fields) = Err (KeyError "definition")))
  /\ (forall pre e rest,
        starts_pass X event base_url auth topology h0 ->
        script topology = map Ok pre ++ Err e :: rest ->
        accepts X h0 (requests base_url auth pre) = true ->
        on_event X event []
        = (Err e, h0 ++ map Http (requests base_url auth pre)))
  /\ (forall entity c,
        starts_pass X event base_url auth topology h0 ->
        topology = JObj [("exchanges", JArr [entity; entity])] ->
        exchange_call entity = Ok c ->
        accepts X h0 (requests base_url auth [c; c]) = true ->
        exists v,
          on_event X event []
          = (Ok v, h0 ++ map Http (requests base_url auth [c; c]))).
Proof.
  split; [|split; [|split]].
  - intros rt fields arn host text h Hrt Hdel Hprops Harn Hhost Htext Hloads.
    unfold on_event, bind, lift. rewrite Hrt.
    assert (Hget : get event "ResourceProperties" (JObj []) = Ok (JObj fields)).
    { unfold subscript in Hprops. unfold get. destruct event; try discriminate.
      destruct (assoc _ _); [exact Hprops|discriminate]. }
    rewrite Hget. cbn [keys]. rewrite Hprops, Hdel.
    unfold connect, bind, lift. rewrite get_obj. unfold subscript, loads.
    rewrite Harn, Hhost, Htext, Hloads. reflexivity.
  - intros fields. repeat split.
    + unfold exchange_call, subscript. now rewrite H.
    + unfold queue_call, subscript. now rewrite H.
    + unfold policy_call, subscript. now rewrite H.
    + intros H. unfold binding_call, subscript. now rewrite H.
    + intros source Hs Hd. unfold binding_call, subscript. now rewrite Hs, Hd.
    + intros name Hn Hp. unfold policy_call, subscript. now rewrite Hn, Hp.
    + intros name pattern Hn Hp Hd. unfold policy_call, subscript.
      now rewrite Hn, Hp, Hd.
  - intros pre e rest Hstart Hscript Hacc.
    exact (on_event_unbuilt X event base_url auth topology h0 Hstart pre e rest
             Hscript Hacc).
  - intros entity c Hstart -> Hc Hacc.
    apply (on_event_accepted X event base_url auth _ h0 Hstart [c; c]); [|exact Hacc].
    unfold plan. cbn. rewrite Hc. reflexivity.
Qed.

Lemma malformed_documents_witness :
  on_event (Demo.world Demo.upper_secret_text Demo.created)
    (Demo.event "Create" Demo.broken_text) []
  = (Err JSONDecodeError, [])
  /\ on_event (Demo.world Demo.upper_secret_text Demo.created)
       (Demo.event "Create" Demo.nameless_text) []
     = (Err (KeyError "name"),
        Demo.after_secret
        ++ map Http
             (requests Demo.base_url Demo.auth
                [mkCall "PUT" "/exchanges/%2F/a"
                   (JObj [("type", JStr "direct"); ("durable", JBool true);
                          ("auto_delete", JBool false); ("arguments", JObj [])])]))
  /\ is_ok (fst (on_event (Demo.world Demo.upper_secret_text Demo.created)
                   (Demo.event "Create" Demo.twice_text) [])) = true.
Proof.
  split; [|split].
  - exact (proj1 (malformed_documents (Demo.world Demo.upper_secret_text Demo.created)
                    (Demo.event "Create" Demo.broken_text) "" "" JNull [])
             _ _ _ _ _ [] eq_refl eq_refl eq_refl eq_refl eq_refl eq_refl eq_refl).
  - refine (proj1 (proj2 (proj2 (malformed_documents
                    (Demo.world Demo.upper_secret_text Demo.created)
                    (Demo.event "Create" Demo.nameless_text)
                    Demo.base_url Demo.auth Demo.nameless_doc Demo.after_secret)))
              [_] (KeyError "name") [] ltac:(run_connect) eq_refl eq_refl).
  - destruct (proj2 (proj2 (proj2 (malformed_documents
                    (Demo.world Demo.upper_secret_text Demo.created)
                    (Demo.event "Create" Demo.twice_text)
                    Demo.base_url Demo.auth Demo.twice_doc Demo.after_secret)))
                (JObj [("name", JStr "a")]) _ ltac:(run_connect) eq_refl eq_refl eq_refl)
      as [v Hv].
    rewrite Hv. reflexivity.
Defined.


(** * Further properties of the handler *)

(** ** The envelope and the properties (lines 28-43) *)

Lemma snd_finish {A} (o : option exn * history) (a : A) : snd (finish o a) = snd o.
Proof. destruct o as [[e|] h]; reflexivity. Qed.

Lemma subscript_get_obj event k v :
  subscript event k = Ok v -> exists fields, event = JObj fields /\ assoc k fields = Some v.
Proof.
  unfold subscript. destruct event; try discriminate.
  destruct (assoc k fields) as [w|] eqn:E; [|discriminate].
  intros H; inversion H; subst. now exists fields.
Qed.

(** Past the [Delete] test the handler is [connect] followed by the pass. *)
Lemma on_event_connect X event request_type fields h :
  subscript event "RequestType" = Ok request_type ->
  eq_str request_type "Delete" = false ->
  subscript event "ResourceProperties" = Ok (JObj fields) ->
  on_event X event h
  = match connect X (JObj fields) h with
    | (Ok conn, h') => provision X (fst (fst conn)) (snd (fst conn)) (snd conn) h'
    | (Err e, h') => (Err e, h')
    end.
Proof.
  intros Hrt Hdel Hprops.
  destruct (subscript_get_obj _ _ _ Hprops) as (efields & -> & Hassoc).
  unfold on_event, bind at 1 2 3 4 5, lift. rewrite Hrt.
  unfold get. rewrite Hassoc. cbn [keys]. rewrite Hprops, Hdel.
  unfold bind. reflexivity.
Qed.

(** X6.  What the handler does with an event that lacks its envelope: an
    event that is not a mapping raises [TypeError]; without [RequestType] it
    raises [KeyError] for that key; without [ResourceProperties] it raises
    [KeyError] for that key, also when the request type is [Delete]; with
    [ResourceProperties] that is not a mapping it raises [AttributeError].
    Nothing is contacted in any of these cases. *)
Theorem event_envelope_errors (X : externals) (event : json)
    (fields : list (string * json)) (h : history) :
  ((forall fs, event <> JObj fs) -> on_event X event h = (Err TypeError, h))
  /\ (assoc "RequestType" fields = None ->
      on_event X (JObj fields) h = (Err (KeyError "RequestType"), h))
  /\ (forall request_type,
        assoc "RequestType" fields = Some request_type ->
        assoc "ResourceProperties" fields = None ->
        on_event X (JObj fields) h = (Err (KeyError "ResourceProperties"), h))
  /\ (forall request_type props,
        assoc "RequestType" fields = Some request_type ->
        assoc "ResourceProperties" fields = Some props ->
        (forall fs, props <> JObj fs) ->
        on_event X (JObj fields) h = (Err AttributeError, h)).
Proof.
  split; [|split; [|split]].
  - intros Hno. unfold on_event, bind, lift.
    destruct event; try reflexivity. now destruct (Hno fields0).
  - intros Hrt. unfold on_event, bind, lift, subscript. now rewrite Hrt.
  - intros rt Hrt Hprops. unfold on_event, bind, lift, subscript, get.
    rewrite Hrt, Hprops. reflexivity.
  - intros rt props Hrt Hprops Hno. unfold on_event, bind, lift, subscript, get.
    rewrite Hrt, Hprops.
    destruct props; try reflexivity. now destruct (Hno fields0).
Qed.

Lemma event_envelope_errors_witness :
  on_event (Demo.world Demo.lower_secret_text Demo.created) (JArr []) []
  = (Err TypeError, [])
  /\ on_event (Demo.world Demo.lower_secret_text Demo.created) (JObj []) []
     = (Err (KeyError "RequestType"), [])
  /\ on_event (Demo.world Demo.lower_secret_text Demo.created)
       (JObj [("RequestType", JStr "Delete")]) []
     = (Err (KeyError "ResourceProperties"), [])
  /\ on_event (Demo.world Demo.lower_secret_text Demo.created)
       (JObj [("RequestType", JStr "Delete"); ("ResourceProperties", JNull)]) []
     = (Err AttributeError, []).
Proof.
  split; [|split; [|split]].
  - apply (proj1 (event_envelope_errors _ (JArr []) [] [])). discriminate.
  - exact (proj1 (proj2 (event_envelope_errors
                           (Demo.world Demo.lower_secret_text Demo.created)
                           JNull [] [])) eq_refl).
  - exact (proj1 (proj2 (proj2 (event_envelope_errors
                           (Demo.world Demo.lower_secret_text Demo.created)
                           JNull [("RequestType", JStr "Delete")] [])))
             (JStr "Delete") eq_refl eq_refl).
  - refine (proj2 (proj2 (proj2 (event_envelope_errors
                           (Demo.world Demo.lower_secret_text Demo.created) JNull
                           [("RequestType", JStr "Delete"); ("ResourceProperties", JNull)]
                           [])))
              (JStr "Delete") JNull eq_refl eq_refl _).
    discriminate.
Defined.

(** X7.  On a create or update event the properties are read in the order
    [SecretArn], [BrokerHost], [Topology], and the first one that is missing
    raises [KeyError] for its key; a [Topology] that is not a text raises
    [TypeError].  All of this happens before the secret store is contacted:
    the history is unchanged. *)
Theorem properties_checked_first (X : externals) (event request_type : json)
    (fields : list (string * json)) (h : history) :
  subscript event "RequestType" = Ok request_type ->
  eq_str request_type "Delete" = false ->
  subscript event "ResourceProperties" = Ok (JObj fields) ->
  (assoc "SecretArn" fields = None ->
   on_event X event h = (Err (KeyError "SecretArn"), h))
  /\ (forall secret_arn,
        assoc "SecretArn" fields = Some secret_arn ->
        assoc "BrokerHost" fields = None ->
        on_event X event h = (Err (KeyError "BrokerHost"), h))
  /\ (forall secret_arn broker_host,
        assoc "SecretArn" fields = Some secret_arn ->
        assoc "BrokerHost" fields = Some broker_host ->
        assoc "Topology" fields = None ->
        on_event X event h = (Err (KeyError "Topology"), h))
  /\ (forall secret_arn broker_host v,
        assoc "SecretArn" fields = Some secret_arn ->
        assoc "BrokerHost" fields = Some broker_host ->
        assoc "Topology" fields = Some v ->
        (forall text, v <> JStr text) ->
        on_event X event h = (Err TypeError, h)).
Proof.
  intros Hrt Hdel Hprops.
  rewrite (on_event_connect X event request_type fields h Hrt Hdel Hprops).
  unfold connect, bind, lift. rewrite get_obj. unfold subscript.
  split; [|split; [|split]].
  - intros Harn. now rewrite Harn.
  - intros arn Harn Hhost. now rewrite Harn, Hhost.
  - intros arn host Harn Hhost Htopo. now rewrite Harn, Hhost, Htopo.
  - intros arn host v Harn Hhost Htopo Hno. rewrite Harn, Hhost, Htopo.
    unfold loads. destruct v; try reflexivity. now destruct (Hno s).
Qed.

Lemma properties_checked_first_witness :
  on_event (Demo.world Demo.lower_secret_text Demo.created)
    (JObj [("RequestType", JStr "Create");
           ("ResourceProperties", JObj [("BrokerHost", JStr "broker.example")])]) []
  = (Err (KeyError "SecretArn"), [])
  /\ on_event (Demo.world Demo.lower_secret_text Demo.created)
       (JObj [("RequestType", JStr "Update");
              ("ResourceProperties",
               JObj [("SecretArn", JStr "arn"); ("BrokerHost", JStr "broker.example");
                     ("Topology", JObj [])])]) []
     = (Err TypeError, []).
Proof.
  split.
  - exact (proj1 (properties_checked_first
                    (Demo.world Demo.lower_secret_text Demo.created)
                    (JObj [("RequestType", JStr "Create");
                           ("ResourceProperties",
                            JObj [("BrokerHost", JStr "broker.example")])])
                    (JStr "Create") [("BrokerHost", JStr "broker.example")] []
                    eq_refl eq_refl eq_refl) eq_refl).
  - refine (proj2 (proj2 (proj2 (properties_checked_first
                    (Demo.world Demo.lower_secret_text Demo.created)
                    (JObj [("RequestType", JStr "Update");
                           ("ResourceProperties",
                            JObj [("SecretArn", JStr "arn");
                                  ("BrokerHost", JStr "broker.example");
                                  ("Topology", JObj [])])])
                    (JStr "Update")
                    [("SecretArn", JStr "arn"); ("BrokerHost", JStr "broker.example");
                     ("Topology", JObj [])] []
                    eq_refl eq_refl eq_refl)))
              (JStr "arn") (JStr "broker.example") (JObj []) eq_refl eq_refl eq_refl _).
    discriminate.
Defined.

(** X5.  Only the value [Delete] of [RequestType] is told apart: two events
    whose request types are both different from [Delete] and whose
    [ResourceProperties] agree are handled in the same way, so an update (or
    any other request type) performs the same pass as a create. *)
Theorem create_update_alike (X : externals) (event1 event2 rt1 rt2 : json)
    (h : history) :
  subscript event1 "RequestType" = Ok rt1 ->
  eq_str rt1 "Delete" = false ->
  subscript event2 "RequestType" = Ok rt2 ->
  eq_str rt2 "Delete" = false ->
  subscript event1 "ResourceProperties" = subscript event2 "ResourceProperties" ->
  on_event X event1 h = on_event X event2 h.
Proof.
  intros Hrt1 Hdel1 Hrt2 Hdel2 Hsame.
  destruct (subscript_get_obj _ _ _ Hrt1) as (f1 & -> & H1).
  destruct (subscript_get_obj _ _ _ Hrt2) as (f2 & -> & H2).
  unfold on_event, bind, lift. rewrite Hrt1, Hrt2, <- Hsame.
  assert (Hget : get (JObj f1) "ResourceProperties" (JObj [])
                 = get (JObj f2) "ResourceProperties" (JObj [])).
  { unfold subscript in Hsame. unfold get.
    destruct (assoc "ResourceProperties" f1), (assoc "ResourceProperties" f2);
      congruence. }
  rewrite <- Hget.
  destruct (get (JObj f1) "ResourceProperties" (JObj [])) as [rp|]; [|reflexivity].
  destruct (keys rp); [|reflexivity].
  destruct (subscript (JObj f1) "ResourceProperties"); [|reflexivity].
  rewrite Hdel1, Hdel2. reflexivity.
Qed.

Lemma create_update_alike_witness :
  on_event (Demo.world Demo.lower_secret_text Demo.conflict_on_queues)
    (Demo.event "Create" Demo.orders_text) []
  = on_event (Demo.world Demo.lower_secret_text Demo.conflict_on_queues)
      (Demo.event "Update" Demo.orders_text) [].
Proof.
  exact (create_update_alike (Demo.world Demo.lower_secret_text Demo.conflict_on_queues)
           (Demo.event "Create" Demo.orders_text) (Demo.event "Update" Demo.orders_text)
           (JStr "Create") (JStr "Update") [] eq_refl eq_refl eq_refl eq_refl eq_refl).
Defined.

(** ** The secret store (lines 40-55) *)

Lemma connect_effect X props r h h' :
  connect X props h = (r, h') ->
  (h' = h /\ is_ok r = false)
  \/ exists fields secret_arn,
       props = JObj fields
       /\ assoc "SecretArn" fields = Some secret_arn
       /\ h' = h ++ [SecretsGet
                       (field_or fields "Region"
                          (JStr match environ_region X with
                                | Some region => region
                                | None => "us-east-2"
                                end))
                       secret_arn].
Proof.
  unfold connect, bind, lift, secrets_get, ret.
  destruct props; try (cbn; intros H; inversion H; now left).
  rewrite get_obj. unfold subscript.
  destruct (assoc "SecretArn" fields) as [arn|] eqn:Harn;
    [|intros H; inversion H; now left].
  destruct (assoc "BrokerHost" fields); [|intros H; inversion H; now left].
  destruct (assoc "Topology" fields) as [t|]; [|intros H; inversion H; now left].
  destruct (loads X t); [|intros H; inversion H; now left].
  intros H. right. exists fields, arn. split; [reflexivity|]. split; [exact Harn|].
  destruct (get_secret_value X h _ arn) as [resp|]; [|now inversion H].
  destruct resp; try (now inversion H).
  destruct (assoc "SecretString" fields0) as [s|]; [|now inversion H].
  destruct (loads X s); [|now inversion H].
  destruct (credentials _); now inversion H.
Qed.

(** Every request of a run comes from a call of the script. *)
Lemma run_requests X base_url auth rs : forall h,
  exists cs,
    snd (run_script X base_url auth rs h) = h ++ map Http (requests base_url auth cs)
    /\ forall c, In c cs -> In (Ok c) rs.
Proof.
  induction rs as [|[c|e] rs IH]; intros h; simpl.
  - exists []. simpl. rewrite app_nil_r. split; [reflexivity|contradiction].
  - pose proof (api_history X base_url auth (call_method c) (call_path c)
                  (Some (call_body c)) h) as Hh.
    fold (send base_url auth c) in Hh.
    destruct (api X base_url auth _ _ _ h) as [[status|e] h']; simpl in Hh; subst h'.
    + destruct (IH (h ++ [Http (send base_url auth c)])) as (cs & Hcs & Hin).
      exists (c :: cs). simpl. rewrite Hcs, <- app_assoc. split; [reflexivity|].
      intros c' [->|Hc']; [now left|right; now apply Hin].
    + exists [c]. simpl. split; [reflexivity|].
      intros c' [->|[]]. now left.
  - exists []. simpl. rewrite app_nil_r. split; [reflexivity|contradiction].
Qed.

(** The histories an invocation can leave. *)
Lemma on_event_history X event r h :
  on_event X event [] = (r, h) ->
  h = []
  \/ exists fields secret_arn base_url auth cs,
       subscript event "ResourceProperties" = Ok (JObj fields)
       /\ assoc "SecretArn" fields = Some secret_arn
       /\ h = SecretsGet
                (field_or fields "Region"
                   (JStr match environ_region X with
                         | Some region => region
                         | None => "us-east-2"
                         end))
                secret_arn
              :: map Http (requests base_url auth cs).
Proof.
  unfold on_event, bind at 1 2 3 4 5, lift.
  destruct (subscript event "RequestType") as [rt|]; [|intros H; inversion H; now left].
  destruct (get event "ResourceProperties" _) as [rp|]; [|intros H; inversion H; now left].
  destruct (keys rp); [|intros H; inversion H; now left].
  destruct (subscript event "ResourceProperties") as [props|];
    [|intros H; inversion H; now left].
  destruct (eq_str rt "Delete"); [intros H; inversion H; now left|].
  unfold bind.
  destruct (connect X props []) as [[conn|e] h0] eqn:Hconn.
  - intros Hrun.
    pose proof (f_equal snd Hrun) as Hh. simpl in Hh.
    rewrite provision_run, snd_finish in Hh.
    destruct (run_requests X (fst (fst conn)) (snd (fst conn)) (script (snd conn)) h0)
      as (cs & Hcs & _).
    rewrite Hcs in Hh.
    destruct (connect_effect X props _ [] h0 Hconn)
      as [[_ Hbad]|(fields & arn & -> & Harn & ->)]; [discriminate|].
    right. exists fields, arn, (fst (fst conn)), (snd (fst conn)), cs.
    repeat split; [exact Harn|now subst h].
  - intros Hrun; inversion Hrun; subst.
    destruct (connect_effect X props _ [] h Hconn)
      as [[-> _]|(fields & arn & -> & Harn & ->)]; [now left|].
    right. exists fields, arn, "", "", []. repeat split. exact Harn.
Qed.

(** X1.  In any invocation the secret store is contacted at most once, and
    before any request to the broker: the history is empty, or it is one
    secret lookup followed by HTTP requests only. *)
Theorem secret_before_requests (X : externals) (event : json) :
  snd (on_event X event []) = []
  \/ exists region secret_arn rqs,
       snd (on_event X event []) = SecretsGet region secret_arn :: map Http rqs.
Proof.
  destruct (on_event X event []) as [r h] eqn:Hrun. simpl.
  destruct (on_event_history X event r h Hrun)
    as [->|(fields & arn & base_url & auth & cs & _ & _ & ->)]; [now left|].
  right. now eexists _, _, _.
Qed.

(** X2.  The secret is looked up under the [SecretArn] property, in the
    region named by the [Region] property when there is one, otherwise in
    the region of the [AWS_REGION] environment variable, and in [us-east-2]
    when that is not set either. *)
Theorem secret_lookup_region (X : externals) (event : json)
    (region secret_arn : json) (rest : history) :
  snd (on_event X event []) = SecretsGet region secret_arn :: rest ->
  exists fields,
    subscript event "ResourceProperties" = Ok (JObj fields)
    /\ assoc "SecretArn" fields = Some secret_arn
    /\ region = field_or fields "Region"
                  (JStr match environ_region X with
                        | Some env_region => env_region
                        | None => "us-east-2"
                        end).
Proof.
  destruct (on_event X event []) as [r h] eqn:Hrun. simpl. intros ->.
  destruct (on_event_history X event r _ Hrun)
    as [Hnil|(fields & arn & base_url & auth & cs & Hprops & Harn & Hh)];
    [discriminate|].
  inversion Hh; subst. now exists fields.
Qed.

Lemma secret_lookup_region_witness :
  (exists fields,
     subscript (Demo.event "Create" Demo.orders_text) "ResourceProperties"
     = Ok (JObj fields)
     /\ assoc "SecretArn" fields
        = Some (JStr "arn:aws:secretsmanager:us-east-2:1:secret:mq")
     /\ JStr "us-east-2"
        = field_or fields "Region" (JStr "us-east-2"))
  /\ (exists fields,
        Ok (JObj [("Region", JStr "eu-west-1"); ("SecretArn", JStr "arn");
                  ("BrokerHost", JStr "broker.example");
                  ("Topology", JStr Demo.orders_text)])
        = Ok (JObj fields)
        /\ assoc "SecretArn" fields = Some (JStr "arn")
        /\ JStr "eu-west-1" = field_or fields "Region" (JStr "us-east-2")).
Proof.
  split.
  - exact (secret_lookup_region (Demo.world Demo.lower_secret_text Demo.created)
             (Demo.event "Create" Demo.orders_text)
             (JStr "us-east-2") (JStr "arn:aws:secretsmanager:us-east-2:1:secret:mq")
             _ eq_refl).
  - exact (secret_lookup_region (Demo.world Demo.lower_secret_text Demo.created)
             (JObj [("RequestType", JStr "Create");
                    ("ResourceProperties",
                     JObj [("Region", JStr "eu-west-1"); ("SecretArn", JStr "arn");
                           ("BrokerHost", JStr "broker.example");
                           ("Topology", JStr Demo.orders_text)])])
             (JStr "eu-west-1") (JStr "arn") _ eq_refl).
Defined.

(** X8.  When the secret cannot be used (the store raises, the response has
    no [SecretString], the text is not JSON, the payload is not a mapping or
    holds no usable credentials) the invocation raises that exception; the
    single secret lookup is its only effect and no request reaches the
    broker. *)
Theorem unusable_secret_stops (X : externals) (event request_type : json)
    (fields : list (string * json)) (secret_arn broker_host : json)
    (text : string) (topology : json) (e : exn) :
  subscript event "RequestType" = Ok request_type ->
  eq_str request_type "Delete" = false ->
  subscript event "ResourceProperties" = Ok (JObj fields) ->
  assoc "SecretArn" fields = Some secret_arn ->
  assoc "BrokerHost" fields = Some broker_host ->
  assoc "Topology" fields = Some (JStr text) ->
  json_loads X text = Some topology ->
  (response <~ get_secret_value X []
                 (field_or fields "Region"
                    (JStr match environ_region X with
                          | Some env_region => env_region
                          | None => "us-east-2"
                          end))
                 secret_arn ;;
   secret_string <~ subscript response "SecretString" ;;
   secret_value <~ loads X secret_string ;;
   credentials secret_value) = Err e ->
  on_event X event []
  = (Err e,
     [SecretsGet
        (field_or fields "Region"
           (JStr match environ_region X with
                 | Some env_region => env_region
                 | None => "us-east-2"
                 end))
        secret_arn])
  /\ http_calls (snd (on_event X event [])) = [].
Proof.
  intros Hrt Hdel Hprops Harn Hhost Htopo Hloads Hsecret.
  match goal with
  | |- ?l = ?r /\ _ => assert (Hmain : l = r); [|split; [exact Hmain|now rewrite Hmain]]
  end.
  rewrite (on_event_connect X event request_type fields [] Hrt Hdel Hprops).
  unfold connect, bind, lift, secrets_get, ret.
  rewrite get_obj. unfold subscript at 1 2 3. rewrite Harn, Hhost, Htopo.
  unfold loads at 1. rewrite Hloads.
  unfold rbind in Hsecret.
  destruct (get_secret_value X [] _ secret_arn) as [resp|e1];
    [|now inversion Hsecret].
  destruct (subscript resp "SecretString") as [s|e2]; [|now inversion Hsecret].
  destruct (loads X s) as [sv|e3]; [|now inversion Hsecret].
  destruct (credentials sv) as [cred|e4]; [discriminate|now inversion Hsecret].
Qed.

Lemma unusable_secret_stops_witness :
  on_event (Cases.world Cases.store_down Demo.created)
    (Demo.event "Create" Demo.orders_text) []
  = (Err (OtherError "ResourceNotFoundException"),
     [SecretsGet (JStr "us-east-2")
        (JStr "arn:aws:secretsmanager:us-east-2:1:secret:mq")])
  /\ on_event (Cases.world Cases.binary_store Demo.created)
       (Demo.event "Create" Demo.orders_text) []
     = (Err (KeyError "SecretString"),
        [SecretsGet (JStr "us-east-2")
           (JStr "arn:aws:secretsmanager:us-east-2:1:secret:mq")])
  /\ on_event (Cases.world (Cases.store Cases.blank_secret_text) Demo.created)
       (Demo.event "Create" Demo.orders_text) []
     = (Err (ValueError ["username"; "password"]),
        [SecretsGet (JStr "us-east-2")
           (JStr "arn:aws:secretsmanager:us-east-2:1:secret:mq")]).
Proof.
  split; [|split].
  - exact (proj1 (unusable_secret_stops (Cases.world Cases.store_down Demo.created)
                    (Demo.event "Create" Demo.orders_text) (JStr "Create")
                    _ _ _ Demo.orders_text Demo.orders_doc _
                    eq_refl eq_refl eq_refl eq_refl eq_refl eq_refl eq_refl eq_refl)).
  - exact (proj1 (unusable_secret_stops (Cases.world Cases.binary_store Demo.created)
                    (Demo.event "Create" Demo.orders_text) (JStr "Create")
                    _ _ _ Demo.orders_text Demo.orders_doc _
                    eq_refl eq_refl eq_refl eq_refl eq_refl eq_refl eq_refl eq_refl)).
  - exact (proj1 (unusable_secret_stops
                    (Cases.world (Cases.store Cases.blank_secret_text) Demo.created)
                    (Demo.event "Create" Demo.orders_text) (JStr "Create")
                    _ _ _ Demo.orders_text Demo.orders_doc _
                    eq_refl eq_refl eq_refl eq_refl eq_refl eq_refl eq_refl eq_refl)).
Defined.

(** ** The requests of a pass (lines 63-131) *)

Lemma api_failed X base_url auth c h e :
  urlopen X h (send base_url auth c) = Raises e ->
  (forall code body_text, e <> HTTPError code body_text) ->
  api X base_url auth (call_method c) (call_path c) (Some (call_body c)) h
  = (Err e, h ++ [Http (send base_url auth c)]).
Proof.
  intros Hu Hno. unfold api. fold (send base_url auth c). rewrite Hu.
  destruct e; try reflexivity. now destruct (Hno code body_text).
Qed.

Lemma exchange_call_shape e c : exchange_call e = Ok c -> call_shape c.
Proof.
  destruct e; try discriminate. unfold exchange_call. intros H.
  apply subscript_quote_obj in H as (s & Hs & H).
  unfold subscript in H. rewrite Hs, !get_obj in H. simpl in H. inversion H.
  now eapply (ExchangePut _ s).
Qed.

Lemma queue_call_shape e c : queue_call e = Ok c -> call_shape c.
Proof.
  destruct e; try discriminate. unfold queue_call. intros H.
  apply subscript_quote_obj in H as (s & Hs & H).
  unfold subscript in H. rewrite Hs, !get_obj in H. simpl in H. inversion H.
  now eapply (QueuePut _ s).
Qed.

Lemma binding_call_shape e c : binding_call e = Ok c -> call_shape c.
Proof.
  destruct e; try discriminate. unfold binding_call. intros H.
  apply subscript_quote_obj in H as (s & Hs & H).
  apply subscript_quote_obj in H as (d & Hd & H).
  unfold subscript in H. rewrite Hs, Hd, !get_obj in H. simpl in H. inversion H.
  now eapply (BindingPost _ s d).
Qed.

Lemma policy_call_shape e c : policy_call e = Ok c -> call_shape c.
Proof.
  destruct e; try discriminate. unfold policy_call. intros H.
  apply subscript_quote_obj in H as (s & Hs & H).
  rewrite !get_obj in H. unfold subscript in H. rewrite Hs in H. simpl in H.
  destruct (assoc "pattern" fields); [simpl in H|discriminate].
  destruct (assoc "definition" fields); [simpl in H|discriminate].
  inversion H. now eapply (PolicyPut _ s).
Qed.

Lemma kind_script_shape topology mk kind c :
  (forall e c', mk e = Ok c' -> call_shape c') ->
  In (Ok c) (kind_script topology mk kind) -> call_shape c.
Proof.
  intros Hmk. unfold kind_script.
  destruct (entities topology kind) as [items|e].
  - rewrite in_map_iff. intros (x & Hx & _). now apply (Hmk x).
  - intros [H|[]]. discriminate.
Qed.

Lemma script_shape topology c : In (Ok c) (script topology) -> call_shape c.
Proof.
  unfold script. rewrite !in_app_iff.
  intros [H|[H|[H|H]]]; revert H; apply kind_script_shape.
  - apply exchange_call_shape.
  - apply queue_call_shape.
  - apply binding_call_shape.
  - apply policy_call_shape.
Qed.

(** Every request of an invocation is the request of a call of the script. *)
Lemma on_event_requests X event base_url auth topology h0 rq :
  starts_pass X event base_url auth topology h0 ->
  In rq (http_calls (snd (on_event X event []))) ->
  exists c, rq = send base_url auth c /\ call_shape c.
Proof.
  intros Hstart.
  rewrite (on_event_run X event base_url auth topology h0 Hstart), snd_finish.
  destruct (run_requests X base_url auth (script topology) h0) as (cs & -> & Hin).
  rewrite http_calls_app, (pass_no_http_before X event base_url auth topology h0 Hstart),
    http_calls_map. simpl. unfold requests. rewrite in_map_iff.
  intros (c & <- & Hc). exists c. split; [reflexivity|].
  apply (script_shape topology). now apply Hin.
Qed.

(** X3.  Every request the handler sends to the broker carries the same two
    headers, [Content-Type: application/json] and the Basic authorization
    built once from the secret, the timeout of 15 seconds, and a body that
    is a mapping with at least one entry. *)
Theorem request_envelope (X : externals) (event : json) (base_url auth : string)
    (topology : json) (h0 : history) (rq : request) :
  starts_pass X event base_url auth topology h0 ->
  In rq (http_calls (snd (on_event X event []))) ->
  req_headers rq
  = [("Content-Type", "application/json");
     ("Authorization", ("Basic " ++ auth)%string)]
  /\ req_timeout rq = 15
  /\ exists body, req_data rq = Some (JObj body) /\ body <> [].
Proof.
  intros Hstart Hin.
  destruct (on_event_requests X event base_url auth topology h0 rq Hstart Hin)
    as (c & -> & Hshape).
  split; [reflexivity|]. split; [reflexivity|].
  unfold send, build_request. cbn [req_data].
  destruct Hshape; rewrite Hb; exists body;
    (split; [destruct body; [contradiction|reflexivity]|assumption]).
Qed.

Lemma request_envelope_witness :
  req_headers (send Demo.base_url Demo.auth (nth 2 Demo.orders_plan (mkCall "" "" JNull)))
  = [("Content-Type", "application/json"); ("Authorization", "Basic dTpw")]
  /\ req_timeout (send Demo.base_url Demo.auth
                    (nth 2 Demo.orders_plan (mkCall "" "" JNull))) = 15
  /\ exists body,
       req_data (send Demo.base_url Demo.auth
                   (nth 2 Demo.orders_plan (mkCall "" "" JNull)))
       = Some (JObj body) /\ body <> [].
Proof.
  refine (request_envelope (Demo.world Demo.lower_secret_text Demo.created)
            (Demo.event "Create" Demo.orders_text) Demo.base_url Demo.auth
            Demo.orders_doc Demo.after_secret _ ltac:(run_connect) _).
  vm_compute. right. right. left. reflexivity.
Defined.

(** X4.  The handler only ever sends a PUT to an exchange, queue or policy
    path or a POST to a binding path, all under the base URL and the virtual
    host [%2F], with the names percent-encoded.  In particular it never
    sends a DELETE or a GET. *)
Theorem request_targets (X : externals) (event : json) (base_url auth : string)
    (topology : json) (h0 : history) (rq : request) :
  starts_pass X event base_url auth topology h0 ->
  In rq (http_calls (snd (on_event X event []))) ->
  ((req_method rq = "PUT"
    /\ exists name,
         req_url rq = (base_url ++ "/exchanges/%2F/" ++ quote_str name)%string)
   \/ (req_method rq = "PUT"
       /\ exists name,
            req_url rq = (base_url ++ "/queues/%2F/" ++ quote_str name)%string)
   \/ (req_method rq = "POST"
       /\ exists source destination,
            req_url rq = (base_url ++ "/bindings/%2F/e/" ++ quote_str source
                          ++ "/q/" ++ quote_str destination)%string)
   \/ (req_method rq = "PUT"
       /\ exists name,
            req_url rq = (base_url ++ "/policies/%2F/" ++ quote_str name)%string))
  /\ req_method rq <> "DELETE"
  /\ req_method rq <> "GET".
Proof.
  intros Hstart Hin.
  destruct (on_event_requests X event base_url auth topology h0 rq Hstart Hin)
    as (c & -> & Hshape).
  unfold send, build_request. cbn [req_method req_url].
  destruct Hshape; rewrite Hm, Hp; (split; [|split; discriminate]).
  - left. split; [reflexivity|now exists name].
  - right. left. split; [reflexivity|now exists name].
  - right. right. left. split; [reflexivity|now exists source, destination].
  - right. right. right. split; [reflexivity|now exists name].
Qed.

Lemma request_targets_witness :
  ((("POST" = "PUT"
     /\ exists name,
          "https://broker.example/api/bindings/%2F/e/eu%2Forders/q/eu%20orders"
          = (Demo.base_url ++ "/exchanges/%2F/" ++ quote_str name)%string)
    \/ ("POST" = "PUT"
        /\ exists name,
             "https://broker.example/api/bindings/%2F/e/eu%2Forders/q/eu%20orders"
             = (Demo.base_url ++ "/queues/%2F/" ++ quote_str name)%string)
    \/ ("POST" = "POST"
        /\ exists source destination,
             "https://broker.example/api/bindings/%2F/e/eu%2Forders/q/eu%20orders"
             = (Demo.base_url ++ "/bindings/%2F/e/" ++ quote_str source
                ++ "/q/" ++ quote_str destination)%string)
    \/ ("POST" = "PUT"
        /\ exists name,
             "https://broker.example/api/bindings/%2F/e/eu%2Forders/q/eu%20orders"
             = (Demo.base_url ++ "/policies/%2F/" ++ quote_str name)%string))
   /\ "POST" <> "DELETE"
   /\ "POST" <> "GET").
Proof.
  refine (request_targets
            (Cases.world (Cases.store Demo.lower_secret_text) Demo.created)
            (Demo.event "Create" Cases.full_text) Demo.base_url Demo.auth
            Cases.full_doc Demo.after_secret
            (send Demo.base_url Demo.auth
               (mkCall "POST" "/bindings/%2F/e/eu%2Forders/q/eu%20orders"
                  (JObj [("routing_key", JStr ""); ("arguments", JObj [])])))
            ltac:(run_connect) _).
  vm_compute. right. right. left. reflexivity.
Defined.

(** ** Outcomes of a pass (lines 69-138) *)

Lemma kind_script_built topology (mk : json -> res call) kind :
  Forall (fun r => is_ok r = true) (kind_script topology mk kind) ->
  exists items cs,
    entities topology kind = Ok items
    /\ map_res mk items = Ok cs
    /\ kind_script topology mk kind = map Ok cs
    /\ List.length cs = List.length items.
Proof.
  unfold kind_script. destruct (entities topology kind) as [items|e].
  - intros Hall. rewrite Forall_forall in Hall.
    destruct (map_res_forall mk items) as [cs Hcs].
    { intros x Hx. apply Hall. now apply in_map. }
    exists items, cs. repeat split; try assumption.
    + now apply map_res_map.
    + apply map_res_map in Hcs.
      now rewrite <- (List.length_map Ok cs), <- Hcs, List.length_map.
  - intros Hall. inversion Hall; discriminate.
Qed.

(** A script without failing entries is the plan of its document. *)
Lemma script_built_plan topology :
  Forall (fun r => is_ok r = true) (script topology) ->
  exists exs qs bs ps cs,
    entities topology "exchanges" = Ok exs
    /\ entities topology "queues" = Ok qs
    /\ entities topology "bindings" = Ok bs
    /\ entities topology "policies" = Ok ps
    /\ plan topology = Ok cs
    /\ List.length cs
       = (List.length exs + List.length qs + List.length bs + List.length ps)%nat.
Proof.
  unfold script. intros H.
  apply Forall_app in H as [H1 H]. apply Forall_app in H as [H2 H].
  apply Forall_app in H as [H3 H4].
  destruct (kind_script_built _ _ _ H1) as (exs & ecs & E1 & M1 & _ & L1).
  destruct (kind_script_built _ _ _ H2) as (qs & qcs & E2 & M2 & _ & L2).
  destruct (kind_script_built _ _ _ H3) as (bs & bcs & E3 & M3 & _ & L3).
  destruct (kind_script_built _ _ _ H4) as (ps & pcs & E4 & M4 & _ & L4).
  exists exs, qs, bs, ps, (ecs ++ qcs ++ bcs ++ pcs).
  repeat split; try assumption.
  - unfold plan. rewrite E1; simpl. rewrite M1; simpl. rewrite E2; simpl.
    rewrite M2; simpl. rewrite E3; simpl. rewrite M3; simpl. rewrite E4; simpl.
    rewrite M4; reflexivity.
  - rewrite !List.length_app. lia.
Qed.

(** What a successful invocation has done. *)
Lemma on_event_success X event base_url auth topology h0 v h :
  starts_pass X event base_url auth topology h0 ->
  on_event X event [] = (Ok v, h) ->
  exists exs qs bs ps cs,
    entities topology "exchanges" = Ok exs
    /\ entities topology "queues" = Ok qs
    /\ entities topology "bindings" = Ok bs
    /\ entities topology "policies" = Ok ps
    /\ plan topology = Ok cs
    /\ List.length cs
       = (List.length exs + List.length qs + List.length bs + List.length ps)%nat
    /\ accepts X h0 (requests base_url auth cs) = true
    /\ h = h0 ++ map Http (requests base_url auth cs).
Proof.
  intros Hstart Hrun.
  rewrite (on_event_run X event base_url auth topology h0 Hstart) in Hrun.
  pose proof (run_none_built X base_url auth (script topology) h0) as Hbuilt.
  destruct (run_script X base_url auth (script topology) h0) as [[e|] h1] eqn:Hscript;
    simpl in Hrun; [discriminate|].
  inversion Hrun; subst h1.
  destruct (script_built_plan topology (Hbuilt eq_refl))
    as (exs & qs & bs & ps & cs & E1 & E2 & E3 & E4 & Hplan & Hlen).
  exists exs, qs, bs, ps, cs. repeat split; try assumption.
  - rewrite (plan_script _ _ Hplan) in Hscript.
    destruct (run_initial X base_url auth cs h0) as [n [_ Hall]].
    rewrite Hscript in Hall. now destruct (Hall eq_refl).
  - rewrite (plan_script _ _ Hplan) in Hscript.
    destruct (run_initial X base_url auth cs h0) as [n [Hn Hall]].
    rewrite Hscript in Hn, Hall. simpl in Hn.
    destruct (Hall eq_refl) as [-> _]. now rewrite firstn_all in Hn.
Qed.

(** X10.  A create or update invocation succeeds exactly when every call of
    the document can be built and the broker accepts each of them in turn:
    success is never reported after a call that failed, and nothing but a
    failing call or a malformed entity prevents it. *)
Theorem success_iff_all_accepted (X : externals) (event : json)
    (base_url auth : string) (topology : json) (h0 : history) :
  starts_pass X event base_url auth topology h0 ->
  (is_ok (fst (on_event X event [])) = true
   <-> exists cs,
         plan topology = Ok cs
         /\ accepts X h0 (requests base_url auth cs) = true).
Proof.
  intros Hstart. split.
  - destruct (on_event X event []) as [[v|e] h] eqn:Hrun; [intros _|discriminate].
    destruct (on_event_success X event base_url auth topology h0 v h Hstart Hrun)
      as (exs & qs & bs & ps & cs & _ & _ & _ & _ & Hplan & _ & Hacc & _).
    now exists cs.
  - intros (cs & Hplan & Hacc).
    destruct (on_event_accepted X event base_url auth topology h0 Hstart cs Hplan Hacc)
      as [v Hv].
    now rewrite Hv.
Qed.

Lemma success_iff_all_accepted_witness :
  (is_ok (fst (on_event (Demo.world Demo.lower_secret_text Demo.created)
                 (Demo.event "Create" Demo.orders_text) [])) = true
   <-> exists cs,
         plan Demo.orders_doc = Ok cs
         /\ accepts (Demo.world Demo.lower_secret_text Demo.created)
              Demo.after_secret (requests Demo.base_url Demo.auth cs) = true)
  /\ ~ exists cs,
         plan Demo.orders_doc = Ok cs
         /\ accepts (Demo.world Demo.lower_secret_text Demo.conflict_on_queues)
              Demo.after_secret (requests Demo.base_url Demo.auth cs) = true.
Proof.
  split.
  - exact (success_iff_all_accepted (Demo.world Demo.lower_secret_text Demo.created)
             (Demo.event "Create" Demo.orders_text) Demo.base_url Demo.auth
             Demo.orders_doc Demo.after_secret ltac:(run_connect)).
  - intros Hcs.
    apply (proj2 (success_iff_all_accepted
                    (Demo.world Demo.lower_secret_text Demo.conflict_on_queues)
                    (Demo.event "Create" Demo.orders_text) Demo.base_url Demo.auth
                    Demo.orders_doc Demo.after_secret ltac:(run_connect))) in Hcs.
    vm_compute in Hcs. discriminate.
Defined.

(** X12.  A successful invocation has sent exactly one request per entity of
    the document: the number of HTTP requests is the sum of the four entity
    counts. *)
Theorem one_request_per_entity (X : externals) (event : json)
    (base_url auth : string) (topology : json) (h0 : history)
    (v : json) (h : history) :
  starts_pass X event base_url auth topology h0 ->
  on_event X event [] = (Ok v, h) ->
  exists exs qs bs ps,
    entities topology "exchanges" = Ok exs
    /\ entities topology "queues" = Ok qs
    /\ entities topology "bindings" = Ok bs
    /\ entities topology "policies" = Ok ps
    /\ List.length (http_calls h)
       = (List.length exs + List.length qs + List.length bs + List.length ps)%nat.
Proof.
  intros Hstart Hrun.
  destruct (on_event_success X event base_url auth topology h0 v h Hstart Hrun)
    as (exs & qs & bs & ps & cs & E1 & E2 & E3 & E4 & _ & Hlen & _ & ->).
  exists exs, qs, bs, ps. repeat split; try assumption.
  rewrite http_calls_app, (pass_no_http_before X event base_url auth topology h0 Hstart),
    http_calls_map. simpl. unfold requests. now rewrite List.length_map.
Qed.

Lemma one_request_per_entity_witness :
  exists exs qs bs ps,
    entities Cases.full_doc "exchanges" = Ok exs
    /\ entities Cases.full_doc "queues" = Ok qs
    /\ entities Cases.full_doc "bindings" = Ok bs
    /\ entities Cases.full_doc "policies" = Ok ps
    /\ List.length
         (http_calls
            (snd (on_event (Cases.world (Cases.store Demo.upper_secret_text) Demo.created)
                    (Demo.event "Update" Cases.full_text) [])))
       = (List.length exs + List.length qs + List.length bs + List.length ps)%nat.
Proof.
  exact (one_request_per_entity
           (Cases.world (Cases.store Demo.upper_secret_text) Demo.created)
           (Demo.event "Update" Cases.full_text) Demo.base_url Demo.auth
           Cases.full_doc Demo.after_secret
           (apply_result 1 1 1 1) _ ltac:(run_connect) eq_refl).
Defined.

(** X11.  The value a successful invocation returns depends on the document
    alone: the status codes the broker answered, the credentials, the host
    and the request type do not show in it. *)
Theorem result_from_document_alone (X1 X2 : externals) (event1 event2 : json)
    (base_url1 auth1 base_url2 auth2 : string) (topology : json)
    (h1 h2 : history) (v1 v2 : json) (t1 t2 : history) :
  starts_pass X1 event1 base_url1 auth1 topology h1 ->
  starts_pass X2 event2 base_url2 auth2 topology h2 ->
  on_event X1 event1 [] = (Ok v1, t1) ->
  on_event X2 event2 [] = (Ok v2, t2) ->
  v1 = v2.
Proof.
  intros Hs1 Hs2 Hr1 Hr2.
  destruct (on_event_counts X1 event1 base_url1 auth1 topology h1 Hs1 v1 t1 Hr1)
    as (exs & qs & bs & ps & E1 & E2 & E3 & E4 & ->).
  destruct (on_event_counts X2 event2 base_url2 auth2 topology h2 Hs2 v2 t2 Hr2)
    as (exs' & qs' & bs' & ps' & E1' & E2' & E3' & E4' & ->).
  congruence.
Qed.

Lemma result_from_document_alone_witness :
  exists v,
    fst (on_event (Demo.world Demo.lower_secret_text Demo.created)
           (Demo.event "Create" Demo.orders_text) []) = Ok v
    /\ fst (on_event (Demo.world Demo.upper_secret_text Demo.no_content_as_error)
              (Demo.event "Update" Demo.orders_text) []) = Ok v.
Proof.
  exists (apply_result 1 1 1 0). split; [reflexivity|].
  rewrite (result_from_document_alone
             (Demo.world Demo.lower_secret_text Demo.created)
             (Demo.world Demo.upper_secret_text Demo.no_content_as_error)
             (Demo.event "Create" Demo.orders_text)
             (Demo.event "Update" Demo.orders_text)
             Demo.base_url Demo.auth Demo.base_url Demo.auth Demo.orders_doc
             Demo.after_secret Demo.after_secret
             (apply_result 1 1 1 0)
             (match fst (on_event
                           (Demo.world Demo.upper_secret_text Demo.no_content_as_error)
                           (Demo.event "Update" Demo.orders_text) []) with
              | Ok v => v
              | Err _ => JNull
              end)
             (snd (on_event (Demo.world Demo.lower_secret_text Demo.created)
                     (Demo.event "Create" Demo.orders_text) []))
             (snd (on_event (Demo.world Demo.upper_secret_text Demo.no_content_as_error)
                     (Demo.event "Update" Demo.orders_text) []))
             ltac:(run_connect) ltac:(run_connect) eq_refl eq_refl).
  reflexivity.
Defined.

(** X9.  A failure of the transport that is not an HTTP error (a timeout, a
    refused connection) is not caught: after the calls [pre] of the plan were
    accepted, such an exception on the next call [c] ends the invocation
    with that same exception, and the requests sent are those of [pre] and
    [c] only. *)
Theorem transport_failure_aborts (X : externals) (event : json)
    (base_url auth : string) (topology : json) (h0 : history)
    (pre : list call) (c : call) (post : list call) (e : exn) :
  starts_pass X event base_url auth topology h0 ->
  plan topology = Ok (pre ++ c :: post) ->
  accepts X h0 (requests base_url auth pre) = true ->
  urlopen X (h0 ++ map Http (requests base_url auth pre)) (send base_url auth c)
  = Raises e ->
  (forall code body_text, e <> HTTPError code body_text) ->
  on_event X event []
  = (Err e, h0 ++ map Http (requests base_url auth (pre ++ [c]))).
Proof.
  intros Hstart Hplan Hacc Hu Hno.
  rewrite (on_event_run X event base_url auth topology h0 Hstart).
  rewrite (plan_script _ _ Hplan), map_app.
  rewrite (run_accepted X base_url auth pre _ h0 Hacc). simpl.
  rewrite (api_failed X base_url auth c _ e Hu Hno). simpl. unfold requests. now rewrite !map_app, app_assoc.
Qed.

Lemma transport_failure_aborts_witness :
  on_event (Cases.world (Cases.store Demo.lower_secret_text) Cases.silent_on_queues)
    (Demo.event "Create" Demo.orders_text) []
  = (Err (OtherError "timed out"),
     Demo.after_secret
     ++ map Http (requests Demo.base_url Demo.auth (firstn 2 Demo.orders_plan))).
Proof.
  refine (transport_failure_aborts
            (Cases.world (Cases.store Demo.lower_secret_text) Cases.silent_on_queues)
            (Demo.event "Create" Demo.orders_text) Demo.base_url Demo.auth
            Demo.orders_doc Demo.after_secret
            (firstn 1 Demo.orders_plan) (nth 1 Demo.orders_plan (mkCall "" "" JNull))
            (skipn 2 Demo.orders_plan) (OtherError "timed out")
            ltac:(run_connect) eq_refl eq_refl eq_refl _).
  discriminate.
Defined.

(** X15.  A decoded document of the wrong shape.  When it is not a mapping
    the pass raises [AttributeError] before any request.  When the value
    under [exchanges] cannot be iterated (null, a number, a boolean) the pass
    raises at once; when the value under [queues] cannot be iterated the
    pass raises only after every exchange has been applied. *)
Theorem document_shape_errors (X : externals) (event : json)
    (base_url auth : string) (topology : json) (h0 : history) :
  starts_pass X event base_url auth topology h0 ->
  ((forall fields, topology <> JObj fields) ->
   on_event X event [] = (Err AttributeError, h0))
  /\ (forall e,
        entities topology "exchanges" = Err e ->
        on_event X event [] = (Err e, h0))
  /\ (forall exs cs e,
        entities topology "exchanges" = Ok exs ->
        map_res exchange_call exs = Ok cs ->
        accepts X h0 (requests base_url auth cs) = true ->
        entities topology "queues" = Err e ->
        on_event X event [] = (Err e, h0 ++ map Http (requests base_url auth cs))).
Proof.
  intros Hstart. split; [|split].
  - intros Hno.
    rewrite (on_event_unbuilt X event base_url auth topology h0 Hstart [] AttributeError
               (kind_script topology queue_call "queues"
                ++ kind_script topology binding_call "bindings"
                ++ kind_script topology policy_call "policies")).
    + simpl. now rewrite app_nil_r.
    + unfold script, kind_script at 1, entities, get.
      destruct topology; try reflexivity. now destruct (Hno fields).
    + reflexivity.
  - intros e He.
    rewrite (on_event_unbuilt X event base_url auth topology h0 Hstart [] e
               (kind_script topology queue_call "queues"
                ++ kind_script topology binding_call "bindings"
                ++ kind_script topology policy_call "policies")).
    + simpl. now rewrite app_nil_r.
    + unfold script, kind_script at 1. now rewrite He.
    + reflexivity.
  - intros exs cs e Hexs Hcs Hacc Hq.
    apply (on_event_unbuilt X event base_url auth topology h0 Hstart cs e
             (kind_script topology binding_call "bindings"
              ++ kind_script topology policy_call "policies")); [|exact Hacc].
    unfold script, kind_script at 1 2. rewrite Hexs, Hq.
    rewrite (map_res_map _ _ _ Hcs). reflexivity.
Qed.

Lemma document_shape_errors_witness :
  on_event (Cases.world (Cases.store Demo.lower_secret_text) Demo.created)
    (Demo.event "Create" Cases.list_text) []
  = (Err AttributeError, Demo.after_secret)
  /\ on_event (Cases.world (Cases.store Demo.lower_secret_text) Demo.created)
       (Demo.event "Create" Cases.null_queues_text) []
     = (Err TypeError,
        Demo.after_secret
        ++ map Http
             (requests Demo.base_url Demo.auth
                [mkCall "PUT" "/exchanges/%2F/a"
                   (JObj [("type", JStr "direct"); ("durable", JBool true);
                          ("auto_delete", JBool false); ("arguments", JObj [])])])).
Proof.
  split.
  - apply (proj1 (document_shape_errors
                    (Cases.world (Cases.store Demo.lower_secret_text) Demo.created)
                    (Demo.event "Create" Cases.list_text) Demo.base_url Demo.auth
                    (JArr []) Demo.after_secret ltac:(run_connect))).
    discriminate.
  - exact (proj2 (proj2 (document_shape_errors
                    (Cases.world (Cases.store Demo.lower_secret_text) Demo.created)
                    (Demo.event "Create" Cases.null_queues_text) Demo.base_url Demo.auth
                    Cases.null_queues_doc Demo.after_secret ltac:(run_connect)))
             [JObj [("name", JStr "a")]] _ TypeError eq_refl eq_refl eq_refl eq_refl).
Defined.

(** X16.  A document in which every kind is absent or empty is a success
    without any request to the broker, and all four counts are zero. *)
Theorem empty_document_no_requests (X : externals) (event : json)
    (base_url auth : string) (topology : json) (h0 : history) :
  starts_pass X event base_url auth topology h0 ->
  entities topology "exchanges" = Ok [] ->
  entities topology "queues" = Ok [] ->
  entities topology "bindings" = Ok [] ->
  entities topology "policies" = Ok [] ->
  on_event X event []
  = (Ok (JObj [("PhysicalResourceId", JStr physical_id);
               ("Data", JObj [("exchanges", JStr "0"); ("queues", JStr "0");
                              ("bindings", JStr "0"); ("policies", JStr "0")])]),
     h0)
  /\ http_calls (snd (on_event X event [])) = [].
Proof.
  intros Hstart E1 E2 E3 E4.
  assert (Hmain : on_event X event []
                  = (Ok (apply_result 0 0 0 0), h0)).
  { rewrite (on_event_run X event base_url auth topology h0 Hstart).
    unfold script, kind_script. rewrite E1, E2, E3, E4. reflexivity. }
  rewrite Hmain. split; [reflexivity|].
  exact (pass_no_http_before X event base_url auth topology h0 Hstart).
Qed.

Lemma empty_document_no_requests_witness :
  on_event (Cases.world (Cases.store Demo.lower_secret_text) Demo.conflict_on_queues)
    (Demo.event "Create" Cases.empty_text) []
  = (Ok (JObj [("PhysicalResourceId", JStr physical_id);
               ("Data", JObj [("exchanges", JStr "0"); ("queues", JStr "0");
                              ("bindings", JStr "0"); ("policies", JStr "0")])]),
     Demo.after_secret).
Proof.
  exact (proj1 (empty_document_no_requests
                  (Cases.world (Cases.store Demo.lower_secret_text)
                     Demo.conflict_on_queues)
                  (Demo.event "Create" Cases.empty_text) Demo.base_url Demo.auth
                  (JObj []) Demo.after_secret ltac:(run_connect)
                  eq_refl eq_refl eq_refl eq_refl)).
Defined.

(** ** Paths (lines 88-123) *)

Lemma quote_str_inj a b : quote_str a = quote_str b -> a = b.
Proof.
  intros H. rewrite <- (unquote_quote_str a), <- (unquote_quote_str b). now rewrite H.
Qed.

Lemma append_cancel_l (p a b : string) : (p ++ a = p ++ b)%string -> a = b.
Proof. induction p as [|c p IH]; simpl; intros H; [exact H|inversion H; auto]. Qed.

Lemma quote_str_no_slash name c :
  In c (list_ascii_of_string (quote_str name)) -> c <> "/"%char.
Proof.
  intros Hin. pose proof (quote_str_chars name) as Hall.
  rewrite forallb_forall in Hall. now apply segment_char_plain, Hall.
Qed.

(** Two texts without slash that are followed by a slash end at the same place. *)
Lemma split_at_slash (a a' r r' : string) :
  (forall c, In c (list_ascii_of_string a) -> c <> "/"%char) ->
  (forall c, In c (list_ascii_of_string a') -> c <> "/"%char) ->
  (a ++ String "/" r = a' ++ String "/" r')%string ->
  a = a' /\ r = r'.
Proof.
  revert a'. induction a as [|c a IH]; intros [|c' a'] Ha Ha' H; simpl in *.
  - inversion H. auto.
  - inversion H; subst c'. now destruct (Ha' "/"%char (or_introl eq_refl)).
  - inversion H; subst c. now destruct (Ha "/"%char (or_introl eq_refl)).
  - inversion H; subst c'.
    destruct (IH a') as [-> ->]; auto.
Qed.

(** X13.  Different names never share a path: two exchanges (queues,
    policies) whose calls have the same path have the same name, and two
    bindings whose calls have the same path have the same source and the
    same destination, also when the names contain slashes. *)
Theorem equal_paths_equal_names (f1 f2 : list (string * json)) (c1 c2 : call) :
  call_path c1 = call_path c2 ->
  (exchange_call (JObj f1) = Ok c1 -> exchange_call (JObj f2) = Ok c2 ->
   assoc "name" f1 = assoc "name" f2)
  /\ (queue_call (JObj f1) = Ok c1 -> queue_call (JObj f2) = Ok c2 ->
      assoc "name" f1 = assoc "name" f2)
  /\ (policy_call (JObj f1) = Ok c1 -> policy_call (JObj f2) = Ok c2 ->
      assoc "name" f1 = assoc "name" f2)
  /\ (binding_call (JObj f1) = Ok c1 -> binding_call (JObj f2) = Ok c2 ->
      assoc "source" f1 = assoc "source" f2
      /\ assoc "destination" f1 = assoc "destination" f2).
Proof.
  intros Hpath. split; [|split; [|split]].
  - unfold exchange_call. intros H1 H2.
    apply subscript_quote_obj in H1 as (s1 & Hs1 & H1).
    apply subscript_quote_obj in H2 as (s2 & Hs2 & H2).
    unfold subscript in H1, H2. rewrite Hs1, !get_obj in H1. rewrite Hs2, !get_obj in H2.
    simpl in H1, H2. inversion H1; inversion H2; subst c1 c2. simpl in Hpath.
    inversion Hpath as [Hq]. apply quote_str_inj in Hq. now rewrite Hs1, Hs2, Hq.
  - unfold queue_call. intros H1 H2.
    apply subscript_quote_obj in H1 as (s1 & Hs1 & H1).
    apply subscript_quote_obj in H2 as (s2 & Hs2 & H2).
    unfold subscript in H1, H2. rewrite Hs1, !get_obj in H1. rewrite Hs2, !get_obj in H2.
    simpl in H1, H2. inversion H1; inversion H2; subst c1 c2. simpl in Hpath.
    inversion Hpath as [Hq]. apply quote_str_inj in Hq. now rewrite Hs1, Hs2, Hq.
  - intros H1 H2.
    unfold policy_call in H1, H2.
    apply subscript_quote_obj in H1 as (s1 & Hs1 & H1).
    apply subscript_quote_obj in H2 as (s2 & Hs2 & H2).
    rewrite !get_obj in H1, H2. unfold subscript in H1, H2.
    rewrite Hs1 in H1. rewrite Hs2 in H2. simpl in H1, H2.
    destruct (assoc "pattern" f1); [simpl in H1|discriminate].
    destruct (assoc "definition" f1); [simpl in H1|discriminate].
    destruct (assoc "pattern" f2); [simpl in H2|discriminate].
    destruct (assoc "definition" f2); [simpl in H2|discriminate].
    inversion H1; inversion H2; subst c1 c2. simpl in Hpath.
    inversion Hpath as [Hq]. apply quote_str_inj in Hq. now rewrite Hs1, Hs2, Hq.
  - unfold binding_call. intros H1 H2.
    apply subscript_quote_obj in H1 as (s1 & Hs1 & H1).
    apply subscript_quote_obj in H1 as (d1 & Hd1 & H1).
    apply subscript_quote_obj in H2 as (s2 & Hs2 & H2).
    apply subscript_quote_obj in H2 as (d2 & Hd2 & H2).
    unfold subscript in H1, H2.
    rewrite Hs1, Hd1, !get_obj in H1. rewrite Hs2, Hd2, !get_obj in H2.
    simpl in H1, H2. inversion H1; inversion H2; subst c1 c2. simpl in Hpath.
    inversion Hpath as [Hq].
    apply split_at_slash in Hq as [Hs Hd]; try apply quote_str_no_slash.
    inversion Hd as [Hd']. apply quote_str_inj in Hs, Hd'.
    now rewrite Hs1, Hs2, Hd1, Hd2, Hs, Hd'.
Qed.

Lemma equal_paths_equal_names_witness :
  assoc "source" [("source", JStr "a/q/b"); ("destination", JStr "c")]
  = assoc "source" [("destination", JStr "c"); ("source", JStr "a/q/b")]
  /\ assoc "destination" [("source", JStr "a/q/b"); ("destination", JStr "c")]
     = assoc "destination" [("destination", JStr "c"); ("source", JStr "a/q/b")].
Proof.
  exact (proj2 (proj2 (proj2 (equal_paths_equal_names
                                [("source", JStr "a/q/b"); ("destination", JStr "c")]
                                [("destination", JStr "c"); ("source", JStr "a/q/b")]
                                (mkCall "POST" "/bindings/%2F/e/a%2Fq%2Fb/q/c"
                                   (JObj [("routing_key", JStr "");
                                          ("arguments", JObj [])]))
                                (mkCall "POST" "/bindings/%2F/e/a%2Fq%2Fb/q/c"
                                   (JObj [("routing_key", JStr "");
                                          ("arguments", JObj [])]))
                                eq_refl)))
           eq_refl eq_refl).
Defined.

Lemma plain_char_safe c : plain_char c = always_safe c.
Proof. destruct c as [[] [] [] [] [] [] [] []]; reflexivity. Qed.

Lemma quote_byte_kept c :
  quote_byte c = String c EmptyString <-> plain_char c = true.
Proof. destruct c as [[] [] [] [] [] [] [] []]; split; (reflexivity || discriminate). Qed.

Lemma quote_byte_length c : (1 <= String.length (quote_byte c))%nat.
Proof. unfold quote_byte. destruct (always_safe c); simpl; lia. Qed.

Lemma string_length_app (a b : string) :
  String.length (a ++ b)%string = (String.length a + String.length b)%nat.
Proof. induction a as [|c a IH]; simpl; [reflexivity|now rewrite IH]. Qed.

Lemma quote_str_length name : (String.length name <= String.length (quote_str name))%nat.
Proof.
  induction name as [|c name IH]; simpl; [lia|].
  rewrite string_length_app. pose proof (quote_byte_length c). lia.
Qed.

(** A name is left as it is exactly when all its characters are plain. *)
Lemma quote_str_kept name :
  quote_str name = name <-> forallb plain_char (list_ascii_of_string name) = true.
Proof.
  induction name as [|c name IH]; simpl; [tauto|].
  rewrite andb_true_iff, <- IH, <- quote_byte_kept. split.
  - intros H. unfold quote_byte in *. destruct (always_safe c).
    + simpl in H. inversion H as [Hrest]. rewrite Hrest. auto.
    + simpl in H. inversion H as [[Hc Hrest]].
      pose proof (quote_str_length name) as Hlen.
      rewrite <- Hrest in Hlen at 1. simpl in Hlen. lia.
  - intros [Hc Hrest]. rewrite Hc, Hrest. reflexivity.
Qed.

(** X14.  A name is written into the path unchanged exactly when it consists
    of the characters [A-Z], [a-z], [0-9], [_], [.], [-] and [~] only; every
    other character changes the text.  For such names the path of the call
    is the fixed prefix followed by the name itself (for a binding: source,
    [/q/], destination). *)
Theorem plain_names_verbatim (fields : list (string * json)) :
  (forall name,
     quote_str name = name
     <-> forallb (fun ch =>
                    existsb (Ascii.eqb ch)
                      (list_ascii_of_string
                         "ABCDEFGHIJKLMNOPQRSTUVWXYZabcdefghijklmnopqrstuvwxyz0123456789_.-~"))
           (list_ascii_of_string name) = true)
  /\ (forall name,
        assoc "name" fields = Some (JStr name) ->
        forallb plain_char (list_ascii_of_string name) = true ->
        (exists c, exchange_call (JObj fields) = Ok c
                   /\ call_path c = ("/exchanges/%2F/" ++ name)%string)
        /\ (exists c, queue_call (JObj fields) = Ok c
                      /\ call_path c = ("/queues/%2F/" ++ name)%string)
        /\ (forall pattern definition,
              assoc "pattern" fields = Some pattern ->
              assoc "definition" fields = Some definition ->
              exists c, policy_call (JObj fields) = Ok c
                        /\ call_path c = ("/policies/%2F/" ++ name)%string))
  /\ (forall source destination,
        assoc "source" fields = Some (JStr source) ->
        assoc "destination" fields = Some (JStr destination) ->
        forallb plain_char (list_ascii_of_string source) = true ->
        forallb plain_char (list_ascii_of_string destination) = true ->
        exists c, binding_call (JObj fields) = Ok c
                  /\ call_path c
                     = ("/bindings/%2F/e/" ++ source ++ "/q/" ++ destination)%string).
Proof.
  split; [exact quote_str_kept|]. split.
  - intros name Hname Hplain. apply quote_str_kept in Hplain.
    split; [|split].
    + unfold exchange_call, subscript. rewrite Hname, !get_obj. simpl.
      rewrite Hplain. eexists. split; reflexivity.
    + unfold queue_call, subscript. rewrite Hname, !get_obj. simpl.
      rewrite Hplain. eexists. split; reflexivity.
    + intros pattern definition Hp Hd.
      unfold policy_call. rewrite !get_obj. unfold subscript. rewrite Hname, Hp, Hd.
      simpl. rewrite Hplain. eexists. split; reflexivity.
  - intros source destination Hs Hd Hps Hpd.
    apply quote_str_kept in Hps, Hpd.
    unfold binding_call, subscript. rewrite Hs, Hd, !get_obj. simpl.
    rewrite Hps, Hpd. eexists. split; reflexivity.
Qed.

Lemma plain_names_verbatim_witness :
  (exists c,
     exchange_call (JObj [("name", JStr "Orders_v2.eu-west~1")]) = Ok c
     /\ call_path c = "/exchanges/%2F/Orders_v2.eu-west~1")
  /\ (exists c,
        binding_call (JObj [("source", JStr "a_b-c"); ("destination", JStr "D.e~9")])
        = Ok c
        /\ call_path c = "/bindings/%2F/e/a_b-c/q/D.e~9")
  /\ quote_str "a+b" <> "a+b".
Proof.
  split; [|split].
  - exact (proj1 (proj1 (proj2 (plain_names_verbatim
                                  [("name", JStr "Orders_v2.eu-west~1")]))
                    "Orders_v2.eu-west~1" eq_refl eq_refl)).
  - exact (proj2 (proj2 (plain_names_verbatim
                           [("source", JStr "a_b-c"); ("destination", JStr "D.e~9")]))
             "a_b-c" "D.e~9" eq_refl eq_refl eq_refl eq_refl).
  - intros H. apply (proj1 (proj1 (plain_names_verbatim []) "a+b")) in H. discriminate.
Defined.

(** ** What [connect] hands to the pass (lines 40-61) *)

(** X17.  When a create or update event reaches the provisioning pass, the
    base URL is [https://], the [BrokerHost] property and [/api]; the
    document is the decoded [Topology] property; and the authorization is
    the base64 text of [user:password] for the credentials extracted from
    the decoded [SecretString] that the store returned for [SecretArn]. *)
Theorem connection_parameters (X : externals) (event : json)
    (base_url auth : string) (topology : json) (h0 : history) :
  starts_pass X event base_url auth topology h0 ->
  exists fields secret_arn broker_host text region response secret_text
         secret_value username password,
    subscript event "ResourceProperties" = Ok (JObj fields)
    /\ assoc "SecretArn" fields = Some secret_arn
    /\ assoc "BrokerHost" fields = Some broker_host
    /\ assoc "Topology" fields = Some (JStr text)
    /\ json_loads X text = Some topology
    /\ h0 = [SecretsGet region secret_arn]
    /\ get_secret_value X [] region secret_arn = Ok response
    /\ subscript response "SecretString" = Ok (JStr secret_text)
    /\ json_loads X secret_text = Some secret_value
    /\ credentials secret_value = Ok (username, password)
    /\ base_url = ("https://" ++ fmt (py_str X) broker_host ++ "/api")%string
    /\ auth = b64encode (fmt (py_str X) username ++ ":"
                         ++ fmt (py_str X) password)%string.
Proof.
  intros (rt & props & _ & _ & Hprops & Hconn).
  unfold connect, bind, lift, secrets_get, ret in Hconn.
  destruct props; try (simpl in Hconn; discriminate).
  rewrite get_obj in Hconn. unfold subscript at 1 2 3 in Hconn.
  destruct (assoc "SecretArn" fields) as [arn|] eqn:Harn; [|discriminate].
  destruct (assoc "BrokerHost" fields) as [host|] eqn:Hhost; [|discriminate].
  destruct (assoc "Topology" fields) as [t|] eqn:Htopo; [|discriminate].
  unfold loads at 1 in Hconn. destruct t; try discriminate.
  destruct (json_loads X s) as [doc|] eqn:Hdoc; [|discriminate].
  destruct (get_secret_value X [] _ arn) as [resp|] eqn:Hresp; [|discriminate].
  destruct (subscript resp "SecretString") as [ss|] eqn:Hss; [|discriminate].
  unfold loads in Hconn. destruct ss; try discriminate.
  destruct (json_loads X s0) as [sv|] eqn:Hsv; [|discriminate].
  destruct (credentials sv) as [[u p]|] eqn:Hcred; [|discriminate].
  inversion Hconn; subst.
  exists fields, arn, host, s. eexists. exists resp, s0, sv, u, p.
  repeat split; try eassumption; reflexivity.
Qed.

Lemma connection_parameters_witness :
  exists fields secret_arn broker_host text region response secret_text
         secret_value username password,
    subscript (Demo.event "Create" Demo.orders_text) "ResourceProperties"
    = Ok (JObj fields)
    /\ assoc "SecretArn" fields = Some secret_arn
    /\ assoc "BrokerHost" fields = Some broker_host
    /\ assoc "Topology" fields = Some (JStr text)
    /\ json_loads (Demo.world Demo.upper_secret_text Demo.created) text
       = Some Demo.orders_doc
    /\ Demo.after_secret = [SecretsGet region secret_arn]
    /\ get_secret_value (Demo.world Demo.upper_secret_text Demo.created) []
         region secret_arn = Ok response
    /\ subscript response "SecretString" = Ok (JStr secret_text)
    /\ json_loads (Demo.world Demo.upper_secret_text Demo.created) secret_text
       = Some secret_value
    /\ credentials secret_value = Ok (username, password)
    /\ Demo.base_url
       = ("https://"
          ++ fmt (py_str (Demo.world Demo.upper_secret_text Demo.created)) broker_host
          ++ "/api")%string
    /\ Demo.auth
       = b64encode (fmt (py_str (Demo.world Demo.upper_secret_text Demo.created)) username
                    ++ ":"
                    ++ fmt (py_str (Demo.world Demo.upper_secret_text Demo.created))
                         password)%string.
Proof.
  exact (connection_parameters (Demo.world Demo.upper_secret_text Demo.created)
           (Demo.event "Create" Demo.orders_text) Demo.base_url Demo.auth
           Demo.orders_doc Demo.after_secret ltac:(run_connect)).
Defined.

(** ** Credentials and entities of the wrong type (lines 49-50, 88-123) *)

(** X18.  When extraction succeeds, each credential is the value under the
    lower-case key if that value is usable, and otherwise the value under
    the capitalized key: the lower-case variant wins when both are usable,
    and an empty lower-case value falls back to the capitalized one. *)
Theorem credentials_preference (fields : list (string * json))
    (username password : json) :
  credentials (JObj fields) = Ok (username, password) ->
  username = (if usable fields "username"
              then field_or fields "username" JNull
              else field_or fields "Username" JNull)
  /\ password = (if usable fields "password"
                 then field_or fields "password" JNull
                 else field_or fields "Password" JNull)
  /\ truthy username = true
  /\ truthy password = true.
Proof.
  unfold credentials, usable. rewrite !get_obj. simpl.
  destruct (truthy (field_or fields "username" JNull)) eqn:U1; simpl;
    (destruct (truthy (field_or fields "password" JNull)) eqn:P1; simpl);
    match goal with
    | |- context [if ?b then _ else _] => destruct b eqn:Hb
    end; intros H; inversion H; subst;
    apply orb_false_elim in Hb as [Hu Hp];
    apply negb_false_iff in Hu; apply negb_false_iff in Hp; auto.
Qed.

Lemma credentials_preference_witness :
  (JStr "lower" = JStr "lower" /\ JStr "p" = JStr "p"
   /\ truthy (JStr "lower") = true /\ truthy (JStr "p") = true)
  /\ (JStr "upper" = JStr "upper" /\ JStr "p" = JStr "p"
      /\ truthy (JStr "upper") = true /\ truthy (JStr "p") = true).
Proof.
  split.
  - exact (credentials_preference
             [("Username", JStr "upper"); ("username", JStr "lower");
              ("password", JStr "p")]
             (JStr "lower") (JStr "p") eq_refl).
  - exact (credentials_preference
             [("Username", JStr "upper"); ("username", JStr "");
              ("password", JStr "p")]
             (JStr "upper") (JStr "p") eq_refl).
Defined.

(** X19.  An entity that is not a mapping, or whose name (for a binding:
    source or destination) is there but is not a text, raises [TypeError]
    when its call is built, so no request is sent for it. *)
Theorem entity_type_errors (entity : json) (fields : list (string * json))
    (v : json) :
  ((forall fs, entity <> JObj fs) ->
   exchange_call entity = Err TypeError /\ queue_call entity = Err TypeError
   /\ binding_call entity = Err TypeError /\ policy_call entity = Err TypeError)
  /\ ((forall text, v <> JStr text) ->
      (assoc "name" fields = Some v ->
       exchange_call (JObj fields) = Err TypeError
       /\ queue_call (JObj fields) = Err TypeError
       /\ policy_call (JObj fields) = Err TypeError)
      /\ (assoc "source" fields = Some v ->
          binding_call (JObj fields) = Err TypeError)
      /\ (forall source,
            assoc "source" fields = Some (JStr source) ->
            assoc "destination" fields = Some v ->
            binding_call (JObj fields) = Err TypeError)).
Proof.
  split.
  - intros Hno. destruct entity; try (repeat split; reflexivity).
    now destruct (Hno fields0).
  - intros Hno.
    assert (Hq : quote v = Err TypeError).
    { destruct v; try reflexivity. now destruct (Hno s). }
    split; [|split].
    + intros Hname.
      unfold exchange_call, queue_call, policy_call, subscript.
      rewrite Hname. simpl. rewrite Hq. repeat split.
    + intros Hsrc. unfold binding_call, subscript. rewrite Hsrc. simpl.
      now rewrite Hq.
    + intros source Hsrc Hdst. unfold binding_call, subscript.
      rewrite Hsrc, Hdst. simpl. now rewrite Hq.
Qed.

Lemma entity_type_errors_witness :
  exchange_call (JStr "orders.ex") = Err TypeError
  /\ queue_call (JObj [("name", JInt 5)]) = Err TypeError
  /\ binding_call (JObj [("source", JStr "a"); ("destination", JNull)]) = Err TypeError.
Proof.
  split; [|split].
  - apply (proj1 (entity_type_errors (JStr "orders.ex") [] JNull)). discriminate.
  - refine (proj1 (proj2 (proj1 (proj2 (entity_type_errors JNull
                                          [("name", JInt 5)] (JInt 5)) _ ) eq_refl))).
    discriminate.
  - refine (proj2 (proj2 (proj2 (entity_type_errors JNull
                                   [("source", JStr "a"); ("destination", JNull)] JNull)
                            _)) "a" eq_refl eq_refl).
    discriminate.
Defined.
